(** * WeedBot actuation core: a shallow embedding of [main_pi_control.py]

    The control script keeps one global [STATE] object, two PWM outputs and a
    JSON configuration file, and mutates them from Flask handlers and from the
    detection loop.  All of that is threaded here through a small state and
    exception monad over a [World] record.

    Conventions of the embedding:
    - Python floats are rationals ([Q]); only [+], [-], comparisons, [min] and
      [max] occur in the control logic.  Rounding, infinities and NaN are
      outside the model: every number in a request body, in the file and in
      the state is finite.  A body that carries [Infinity], [NaN], [1e999] or
      the strings ["inf"] and ["nan"] is not a value of [json] here, and no
      statement below speaks about it.
    - [time.time()] and [datetime.now()] are oracles indexed by the number of
      clock reads made so far, so every call site gets its own reading.
    - A failing write of the configuration file is caught and printed by the
      script; the write is modelled as succeeding.
    - [float(s)] on a string is the interpreter's parser, a parameter.
    - The lock is an [RLock] taken by one thread at a time; operations are
      modelled as atomic and sequential.  [check_and_stop_pump] takes no lock:
      statements that need it to run undisturbed leave out the one handler
      that writes what it writes, [/test_pump]. *)

From Stdlib Require Import QArith Qminmax Lqa Lia List.
From stdpp Require Import gmap strings.

Open Scope Q_scope.

(** ** Python numbers *)

Module Py.

(** [a < b], [a > b], [a >= b], [a <= b] and [a == b] on floats. *)
Definition lt (a b : Q) : bool := negb (Qle_bool b a).
Definition gt (a b : Q) : bool := lt b a.
Definition ge (a b : Q) : bool := Qle_bool b a.
Definition le (a b : Q) : bool := Qle_bool a b.
Definition eq (a b : Q) : bool := Qeq_bool a b.

(** The builtins [max(a, b)] and [min(a, b)] keep the first argument unless
    the second is strictly larger (resp. smaller). *)
Definition max (a b : Q) : Q := if gt b a then b else a.
Definition min (a b : Q) : Q := if lt b a then b else a.

End Py.

(** ** Values decoded from a request body *)

(** The contents of arrays and objects are never inspected by the handlers.
    [JNum x] is a number [float()] converts, [x] being its finite value;
    [JHugeInt] is an integer too large for a double (from [2^1024 - 2^970]
    on), which [float()] refuses with [OverflowError]. *)
Inductive json : Type :=
| JNull
| JBool (b : bool)
| JNum (x : Q)
| JHugeInt
| JStr (s : string)
| JArray
| JObject.

Inductive exn : Type :=
| ValueError
| TypeError
| AttributeError
| OverflowError.

(** [value is None] *)
Definition is_None (v : json) : bool :=
  match v with JNull => true | _ => false end.

(** [d.get(key)] and [d.get(key, default)] on a decoded JSON object. *)
Definition dict_get (d : gmap string json) (key : string) : json :=
  default JNull (d !! key).
Definition dict_get_default (d : gmap string json) (key : string) (dflt : json) : json :=
  default dflt (d !! key).

(** ** The global state *)

(** One entry of [STATE.water_log]: the dict with keys ['time'], ['duration'],
    ['amount'] and ['type']. *)
Record LogEntry : Type := {
  log_time : string;
  log_duration : Q;
  log_amount : Q;
  log_type : string
}.

(** [class WeedBotState].  The frame buffer and the lock are left out: no
    actuation decision reads them.  [motor_pause_on_detection_s] is not created
    by [__init__]; it exists only once [load_config] has read a file, hence the
    option. *)
Record WeedBotState : Type := {
  motor_speed : Q;
  pump_detection_duration : Q;
  pump_off_time : Q;
  water_per_spray_ml : Q;
  water_tank_capacity_ml : Q;
  current_water_level_ml : Q;
  water_log : list LogEntry;
  detection_cooldown_s : Q;
  last_detection_time : Q;
  motor_paused_until : Q;
  motor_paused_prev_speed : option Q;
  motor_pause_on_detection_s : option Q
}.

(** What is stored at [CONFIG_FILE_PATH]: nothing, something [json.load]
    or [config.get] fails on, or a record of numbers. *)
Inductive File : Type :=
| Missing
| Unreadable
| Json (config : gmap string Q).

(** The state object together with the devices, the disk and the number of
    clock reads made so far. *)
Record World : Type := {
  STATE : WeedBotState;
  motor_pwm : Q;
  pump_pwm : Q;
  pump_dir : bool;
  config_file : File;
  clock_reads : nat
}.

(** *** Attribute assignment *)

Definition set_motor_speed_attr (v : Q) (s : WeedBotState) : WeedBotState :=
  {| motor_speed := v;
     pump_detection_duration := pump_detection_duration s;
     pump_off_time := pump_off_time s;
     water_per_spray_ml := water_per_spray_ml s;
     water_tank_capacity_ml := water_tank_capacity_ml s;
     current_water_level_ml := current_water_level_ml s;
     water_log := water_log s;
     detection_cooldown_s := detection_cooldown_s s;
     last_detection_time := last_detection_time s;
     motor_paused_until := motor_paused_until s;
     motor_paused_prev_speed := motor_paused_prev_speed s;
     motor_pause_on_detection_s := motor_pause_on_detection_s s |}.

Definition set_pump_detection_duration (v : Q) (s : WeedBotState) : WeedBotState :=
  {| motor_speed := motor_speed s;
     pump_detection_duration := v;
     pump_off_time := pump_off_time s;
     water_per_spray_ml := water_per_spray_ml s;
     water_tank_capacity_ml := water_tank_capacity_ml s;
     current_water_level_ml := current_water_level_ml s;
     water_log := water_log s;
     detection_cooldown_s := detection_cooldown_s s;
     last_detection_time := last_detection_time s;
     motor_paused_until := motor_paused_until s;
     motor_paused_prev_speed := motor_paused_prev_speed s;
     motor_pause_on_detection_s := motor_pause_on_detection_s s |}.

Definition set_pump_off_time (v : Q) (s : WeedBotState) : WeedBotState :=
  {| motor_speed := motor_speed s;
     pump_detection_duration := pump_detection_duration s;
     pump_off_time := v;
     water_per_spray_ml := water_per_spray_ml s;
     water_tank_capacity_ml := water_tank_capacity_ml s;
     current_water_level_ml := current_water_level_ml s;
     water_log := water_log s;
     detection_cooldown_s := detection_cooldown_s s;
     last_detection_time := last_detection_time s;
     motor_paused_until := motor_paused_until s;
     motor_paused_prev_speed := motor_paused_prev_speed s;
     motor_pause_on_detection_s := motor_pause_on_detection_s s |}.

Definition set_water_per_spray_ml (v : Q) (s : WeedBotState) : WeedBotState :=
  {| motor_speed := motor_speed s;
     pump_detection_duration := pump_detection_duration s;
     pump_off_time := pump_off_time s;
     water_per_spray_ml := v;
     water_tank_capacity_ml := water_tank_capacity_ml s;
     current_water_level_ml := current_water_level_ml s;
     water_log := water_log s;
     detection_cooldown_s := detection_cooldown_s s;
     last_detection_time := last_detection_time s;
     motor_paused_until := motor_paused_until s;
     motor_paused_prev_speed := motor_paused_prev_speed s;
     motor_pause_on_detection_s := motor_pause_on_detection_s s |}.

Definition set_water_tank_capacity_ml (v : Q) (s : WeedBotState) : WeedBotState :=
  {| motor_speed := motor_speed s;
     pump_detection_duration := pump_detection_duration s;
     pump_off_time := pump_off_time s;
     water_per_spray_ml := water_per_spray_ml s;
     water_tank_capacity_ml := v;
     current_water_level_ml := current_water_level_ml s;
     water_log := water_log s;
     detection_cooldown_s := detection_cooldown_s s;
     last_detection_time := last_detection_time s;
     motor_paused_until := motor_paused_until s;
     motor_paused_prev_speed := motor_paused_prev_speed s;
     motor_pause_on_detection_s := motor_pause_on_detection_s s |}.

Definition set_current_water_level_ml (v : Q) (s : WeedBotState) : WeedBotState :=
  {| motor_speed := motor_speed s;
     pump_detection_duration := pump_detection_duration s;
     pump_off_time := pump_off_time s;
     water_per_spray_ml := water_per_spray_ml s;
     water_tank_capacity_ml := water_tank_capacity_ml s;
     current_water_level_ml := v;
     water_log := water_log s;
     detection_cooldown_s := detection_cooldown_s s;
     last_detection_time := last_detection_time s;
     motor_paused_until := motor_paused_until s;
     motor_paused_prev_speed := motor_paused_prev_speed s;
     motor_pause_on_detection_s := motor_pause_on_detection_s s |}.

Definition set_water_log (v : list LogEntry) (s : WeedBotState) : WeedBotState :=
  {| motor_speed := motor_speed s;
     pump_detection_duration := pump_detection_duration s;
     pump_off_time := pump_off_time s;
     water_per_spray_ml := water_per_spray_ml s;
     water_tank_capacity_ml := water_tank_capacity_ml s;
     current_water_level_ml := current_water_level_ml s;
     water_log := v;
     detection_cooldown_s := detection_cooldown_s s;
     last_detection_time := last_detection_time s;
     motor_paused_until := motor_paused_until s;
     motor_paused_prev_speed := motor_paused_prev_speed s;
     motor_pause_on_detection_s := motor_pause_on_detection_s s |}.

Definition set_detection_cooldown_s (v : Q) (s : WeedBotState) : WeedBotState :=
  {| motor_speed := motor_speed s;
     pump_detection_duration := pump_detection_duration s;
     pump_off_time := pump_off_time s;
     water_per_spray_ml := water_per_spray_ml s;
     water_tank_capacity_ml := water_tank_capacity_ml s;
     current_water_level_ml := current_water_level_ml s;
     water_log := water_log s;
     detection_cooldown_s := v;
     last_detection_time := last_detection_time s;
     motor_paused_until := motor_paused_until s;
     motor_paused_prev_speed := motor_paused_prev_speed s;
     motor_pause_on_detection_s := motor_pause_on_detection_s s |}.

Definition set_last_detection_time (v : Q) (s : WeedBotState) : WeedBotState :=
  {| motor_speed := motor_speed s;
     pump_detection_duration := pump_detection_duration s;
     pump_off_time := pump_off_time s;
     water_per_spray_ml := water_per_spray_ml s;
     water_tank_capacity_ml := water_tank_capacity_ml s;
     current_water_level_ml := current_water_level_ml s;
     water_log := water_log s;
     detection_cooldown_s := detection_cooldown_s s;
     last_detection_time := v;
     motor_paused_until := motor_paused_until s;
     motor_paused_prev_speed := motor_paused_prev_speed s;
     motor_pause_on_detection_s := motor_pause_on_detection_s s |}.

Definition set_motor_paused_until (v : Q) (s : WeedBotState) : WeedBotState :=
  {| motor_speed := motor_speed s;
     pump_detection_duration := pump_detection_duration s;
     pump_off_time := pump_off_time s;
     water_per_spray_ml := water_per_spray_ml s;
     water_tank_capacity_ml := water_tank_capacity_ml s;
     current_water_level_ml := current_water_level_ml s;
     water_log := water_log s;
     detection_cooldown_s := detection_cooldown_s s;
     last_detection_time := last_detection_time s;
     motor_paused_until := v;
     motor_paused_prev_speed := motor_paused_prev_speed s;
     motor_pause_on_detection_s := motor_pause_on_detection_s s |}.

Definition set_motor_paused_prev_speed (v : option Q) (s : WeedBotState) : WeedBotState :=
  {| motor_speed := motor_speed s;
     pump_detection_duration := pump_detection_duration s;
     pump_off_time := pump_off_time s;
     water_per_spray_ml := water_per_spray_ml s;
     water_tank_capacity_ml := water_tank_capacity_ml s;
     current_water_level_ml := current_water_level_ml s;
     water_log := water_log s;
     detection_cooldown_s := detection_cooldown_s s;
     last_detection_time := last_detection_time s;
     motor_paused_until := motor_paused_until s;
     motor_paused_prev_speed := v;
     motor_pause_on_detection_s := motor_pause_on_detection_s s |}.

Definition set_motor_pause_on_detection_s (v : option Q) (s : WeedBotState) : WeedBotState :=
  {| motor_speed := motor_speed s;
     pump_detection_duration := pump_detection_duration s;
     pump_off_time := pump_off_time s;
     water_per_spray_ml := water_per_spray_ml s;
     water_tank_capacity_ml := water_tank_capacity_ml s;
     current_water_level_ml := current_water_level_ml s;
     water_log := water_log s;
     detection_cooldown_s := detection_cooldown_s s;
     last_detection_time := last_detection_time s;
     motor_paused_until := motor_paused_until s;
     motor_paused_prev_speed := motor_paused_prev_speed s;
     motor_pause_on_detection_s := v |}.

Definition with_STATE (f : WeedBotState -> WeedBotState) (w : World) : World :=
  {| STATE := f (STATE w);
     motor_pwm := motor_pwm w;
     pump_pwm := pump_pwm w;
     pump_dir := pump_dir w;
     config_file := config_file w;
     clock_reads := clock_reads w |}.

Definition with_motor_pwm (v : Q) (w : World) : World :=
  {| STATE := STATE w;
     motor_pwm := v;
     pump_pwm := pump_pwm w;
     pump_dir := pump_dir w;
     config_file := config_file w;
     clock_reads := clock_reads w |}.

Definition with_pump_pwm (v : Q) (w : World) : World :=
  {| STATE := STATE w;
     motor_pwm := motor_pwm w;
     pump_pwm := v;
     pump_dir := pump_dir w;
     config_file := config_file w;
     clock_reads := clock_reads w |}.

Definition with_pump_dir (v : bool) (w : World) : World :=
  {| STATE := STATE w;
     motor_pwm := motor_pwm w;
     pump_pwm := pump_pwm w;
     pump_dir := v;
     config_file := config_file w;
     clock_reads := clock_reads w |}.

Definition with_config_file (v : File) (w : World) : World :=
  {| STATE := STATE w;
     motor_pwm := motor_pwm w;
     pump_pwm := pump_pwm w;
     pump_dir := pump_dir w;
     config_file := v;
     clock_reads := clock_reads w |}.

Definition with_clock_reads (v : nat) (w : World) : World :=
  {| STATE := STATE w;
     motor_pwm := motor_pwm w;
     pump_pwm := pump_pwm w;
     pump_dir := pump_dir w;
     config_file := config_file w;
     clock_reads := v |}.

(** ** The monad of statements: state plus Python exceptions *)

Inductive outcome (A : Type) : Type :=
| Ret (a : A)
| Raise (e : exn).
Arguments Ret {A} a.
Arguments Raise {A} e.

Definition M (A : Type) : Type := World -> outcome A * World.

Definition ret {A} (a : A) : M A := fun w => (Ret a, w).
Definition raise {A} (e : exn) : M A := fun w => (Raise e, w).

Definition bind {A B} (c : M A) (k : A -> M B) : M B :=
  fun w =>
    match c w with
    | (Ret a, w') => k a w'
    | (Raise e, w') => (Raise e, w')
    end.

(** [try: c  except <handler>]: the handler sees the exception and the world as
    the failed statement left it. *)
Definition try_except {A} (c : M A) (handler : exn -> M A) : M A :=
  fun w =>
    match c w with
    | (Ret a, w') => (Ret a, w')
    | (Raise e, w') => handler e w'
    end.

(** [except ValueError:] catches that one class and lets the rest propagate. *)
Definition except_ValueError {A} (h : M A) (e : exn) : M A :=
  match e with
  | ValueError => h
  | _ => raise e
  end.

Definition read {A} (f : World -> A) : M A := fun w => (Ret (f w), w).
Definition write (f : World -> World) : M unit := fun w => (Ret tt, f w).

Notation "x <- c ;; k" := (bind c (fun x => k))
  (at level 100, c at next level, right associativity).
Notation "c ;; k" := (bind c (fun _ => k))
  (at level 100, right associativity).

(** The world a statement leaves behind and the value it returns. *)
Definition exec {A} (c : M A) (w : World) : World := snd (c w).
Definition result {A} (c : M A) (w : World) : outcome A := fst (c w).

(** ** Constants of the script *)

#[local] Instance Q_inhabited : Inhabited Q := populate 0.

Definition DEFAULT_CONFIG : gmap string Q :=
  {[ "motor_speed"%string := 0.2;
     "pump_detection_duration"%string := 0.2;
     "water_per_spray_ml"%string := 10.0;
     "water_tank_capacity_ml"%string := 200.0;
     "current_water_level_ml"%string := 200.0;
     "detection_cooldown_s"%string := 1.0;
     "motor_pause_on_detection_s"%string := 1.0 ]}.

Definition SPEED_PUMP_DUTY_CYCLE : Q := 0.50.

(** [WeedBotState.__init__], run on an existing object: every attribute it
    names is reset, [motor_pause_on_detection_s] is not among them and keeps
    whatever it had. *)
Definition __init__ (self : WeedBotState) : WeedBotState :=
  {| motor_speed := DEFAULT_CONFIG !!! "motor_speed"%string;
     pump_detection_duration := DEFAULT_CONFIG !!! "pump_detection_duration"%string;
     pump_off_time := 0.0;
     water_per_spray_ml := DEFAULT_CONFIG !!! "water_per_spray_ml"%string;
     water_tank_capacity_ml := DEFAULT_CONFIG !!! "water_tank_capacity_ml"%string;
     current_water_level_ml := DEFAULT_CONFIG !!! "current_water_level_ml"%string;
     water_log := [];
     detection_cooldown_s := DEFAULT_CONFIG !!! "detection_cooldown_s"%string;
     last_detection_time := 0.0;
     motor_paused_until := 0.0;
     motor_paused_prev_speed := None;
     motor_pause_on_detection_s := motor_pause_on_detection_s self |}.

(** [STATE = WeedBotState()]: a fresh object has no
    [motor_pause_on_detection_s] attribute. *)
Definition fresh_STATE : WeedBotState :=
  __init__ {| motor_speed := 0; pump_detection_duration := 0; pump_off_time := 0;
              water_per_spray_ml := 0; water_tank_capacity_ml := 0;
              current_water_level_ml := 0; water_log := [];
              detection_cooldown_s := 0; last_detection_time := 0;
              motor_paused_until := 0; motor_paused_prev_speed := None;
              motor_pause_on_detection_s := None |}.

(** [l[-n:]] *)
Definition slice_last {A} (n : nat) (l : list A) : list A :=
  skipn (length l - n) l.

(** What a handler hands to Flask: the ['status'] entry of the JSON body, the
    HTTP code and the numeric entries of the body (the ['message'] text is
    presentation only). *)
Record Response : Type := {
  status : string;
  code : nat;
  fields : list (string * Q)
}.

Definition success (fs : list (string * Q)) : Response :=
  {| status := "success"; code := 200; fields := fs |}.
Definition error (c : nat) : Response :=
  {| status := "error"; code := c; fields := [] |}.

(** ** The program *)

Section Program.

(** [clock n] is what [time.time()] returns when it is the [n]-th read of the
    system clock, [wall n] what [datetime.now().strftime(...)] returns when it
    is; both kinds of read advance the same count.  [float_of_str s] is
    [float(s)], [None] when it raises [ValueError]. *)
Variable clock : nat -> Q.
Variable wall : nat -> string.
Variable float_of_str : string -> option Q.

Definition time_time : M Q :=
  fun w => (Ret (clock (clock_reads w)), with_clock_reads (S (clock_reads w)) w).

Definition datetime_now : M string :=
  fun w => (Ret (wall (clock_reads w)), with_clock_reads (S (clock_reads w)) w).

(** [float(v)] *)
Definition float (v : json) : M Q :=
  match v with
  | JNum x => ret x
  | JBool b => ret (if b then 1 else 0)
  | JHugeInt => raise OverflowError
  | JStr s => match float_of_str s with
              | Some x => ret x
              | None => raise ValueError
              end
  | JNull | JArray | JObject => raise TypeError
  end.

(** *** Configuration persistence *)

(** The dict is built before the [try], so a missing attribute escapes as
    [AttributeError]; a failing file write is swallowed by the [except] and is
    modelled as a write that succeeds. *)
Definition config_dict (s : WeedBotState) (pause : Q) : gmap string Q :=
  {[ "motor_speed"%string := motor_speed s;
     "pump_detection_duration"%string := pump_detection_duration s;
     "water_per_spray_ml"%string := water_per_spray_ml s;
     "water_tank_capacity_ml"%string := water_tank_capacity_ml s;
     "current_water_level_ml"%string := current_water_level_ml s;
     "detection_cooldown_s"%string := detection_cooldown_s s;
     "motor_pause_on_detection_s"%string := pause ]}.

Definition save_config : M unit :=
  s <- read STATE ;;
  match motor_pause_on_detection_s s with
  | None => raise AttributeError
  | Some pause =>
      let config := config_dict s pause in
      write (with_config_file (Json config))
  end.

(** [config.get(key, DEFAULT_CONFIG[dkey])] *)
Definition config_get (config : gmap string Q) (key dkey : string) : Q :=
  default (DEFAULT_CONFIG !!! dkey) (config !! key).

Definition load_config : M unit :=
  try_except
    (f <- read config_file ;;
     match f with
     | Json config =>
         write (with_STATE (set_motor_speed_attr
                  (config_get config "motor_speed" "motor_speed"))) ;;
         write (with_STATE (set_pump_detection_duration
                  (config_get config "pump_detection_duration" "pump_detection_duration"))) ;;
         write (with_STATE (set_water_per_spray_ml
                  (config_get config "water_per_spray_ml" "water_per_spray_ml"))) ;;
         write (with_STATE (set_water_tank_capacity_ml
                  (config_get config "water_tank_capacity_ml" "water_tank_capacity_ml"))) ;;
         write (with_STATE (set_current_water_level_ml
                  (config_get config "current_water_level_ml" "water_tank_capacity_ml"))) ;;
         write (with_STATE (set_detection_cooldown_s
                  (config_get config "detection_cooldown_s" "detection_cooldown_s"))) ;;
         write (with_STATE (set_motor_pause_on_detection_s
                  (Some (config_get config "motor_pause_on_detection_s"
                                    "motor_pause_on_detection_s"))))
     | Unreadable => raise ValueError
     | Missing =>
         write (with_STATE (set_current_water_level_ml
                  (DEFAULT_CONFIG !!! "water_tank_capacity_ml"%string))) ;;
         save_config
     end)
    (fun _ => write (with_STATE __init__) ;; save_config).

(** The module-level statements that follow: [load_config()], then the GPIO
    block that forces the motor to zero and saves. *)
Definition startup : M unit :=
  load_config ;;
  write (with_motor_pwm 0.0) ;;
  write (with_STATE (set_motor_speed_attr 0.0)) ;;
  save_config ;;
  write (with_pump_dir false) ;;
  write (with_pump_pwm 0.0).

(** *** Thread-safe control functions *)

Definition set_motor_speed (new_speed : json) : M bool :=
  try_except
    (x <- float new_speed ;;
     let new_speed := Py.max 0.0 (Py.min 1.0 x) in
     write (with_STATE (set_motor_speed_attr new_speed)) ;;
     s <- read STATE ;;
     write (with_motor_pwm (motor_speed s)) ;;
     write (with_STATE (set_motor_paused_prev_speed None)) ;;
     write (with_STATE (set_motor_paused_until 0.0)) ;;
     save_config ;;
     ret true)
    (except_ValueError (ret false)).

Definition log_water_usage (duration : Q) (type : string) : M bool :=
  s <- read STATE ;;
  let amount_sprayed := water_per_spray_ml s in
  current_time <- datetime_now ;;
  s <- read STATE ;;
  if Py.ge (current_water_level_ml s) amount_sprayed then
    write (with_STATE (set_current_water_level_ml
             (current_water_level_ml s - amount_sprayed))) ;;
    s <- read STATE ;;
    write (with_STATE (set_water_log
             (water_log s ++ [ {| log_time := current_time;
                                  log_duration := duration;
                                  log_amount := amount_sprayed;
                                  log_type := type |} ]))) ;;
    s <- read STATE ;;
    write (with_STATE (set_water_log (slice_last 50 (water_log s)))) ;;
    save_config ;;
    ret true
  else
    ret false.

(** *** Flask handlers.  [data] is [request.get_json()], a JSON object. *)

Definition handle_speed_change (data : gmap string json) : M Response :=
  let new_speed := dict_get data "speed" in
  if is_None new_speed then ret (error 400)
  else
    ok <- set_motor_speed new_speed ;;
    if ok : bool then
      s <- read STATE ;;
      ret (success [("new_speed"%string, motor_speed s)])
    else ret (error 400).

Definition handle_motor_stop : M Response :=
  ok <- set_motor_speed (JNum 0.0) ;;
  if ok : bool then ret (success [("new_speed"%string, 0.0)])
  else ret (error 500).

Definition handle_motor_start : M Response :=
  let default_start_speed := 0.2 in
  ok <- set_motor_speed (JNum default_start_speed) ;;
  if ok : bool then ret (success [("new_speed"%string, default_start_speed)])
  else ret (error 500).

Definition handle_pump_test (data : gmap string json) : M Response :=
  let duration := dict_get_default data "duration" (JNum 1.0) in
  try_except
    (x <- float duration ;;
     let duration := Py.max 0.1 (Py.min 10.0 x) in
     ok <- log_water_usage duration "Test" ;;
     if ok : bool then
       write (with_pump_dir true) ;;
       write (with_pump_pwm SPEED_PUMP_DUTY_CYCLE) ;;
       now <- time_time ;;
       write (with_STATE (set_pump_off_time (now + duration))) ;;
       ret (success [("duration"%string, duration)])
     else
       ret (error 400))
    (except_ValueError (ret (error 400))).

Definition handle_detection_duration_change (data : gmap string json) : M Response :=
  s <- read STATE ;;
  let duration := dict_get_default data "duration" (JNum (pump_detection_duration s)) in
  try_except
    (x <- float duration ;;
     let duration := Py.max 0.1 (Py.min 5.0 x) in
     write (with_STATE (set_pump_detection_duration duration)) ;;
     save_config ;;
     s <- read STATE ;;
     ret (success [("new_duration"%string, pump_detection_duration s)]))
    (except_ValueError (ret (error 400))).

Definition handle_cooldown_change (data : gmap string json) : M Response :=
  s <- read STATE ;;
  let cooldown := dict_get_default data "cooldown" (JNum (detection_cooldown_s s)) in
  try_except
    (x <- float cooldown ;;
     let cooldown := Py.max 0.5 (Py.min 30.0 x) in
     write (with_STATE (set_detection_cooldown_s cooldown)) ;;
     save_config ;;
     s <- read STATE ;;
     ret (success [("new_cooldown"%string, detection_cooldown_s s)]))
    (except_ValueError (ret (error 400))).

Definition set_water_config (data : gmap string json) : M Response :=
  let new_spray_ml := dict_get data "water_per_spray_ml" in
  let new_capacity_ml := dict_get data "water_tank_capacity_ml" in
  try_except
    ((if is_None new_spray_ml then ret tt
      else
        x <- float new_spray_ml ;;
        write (with_STATE (set_water_per_spray_ml (Py.max 0.1 x)))) ;;
     (if is_None new_capacity_ml then ret tt
      else
        x <- float new_capacity_ml ;;
        let new_capacity_ml := Py.max 100.0 x in
        s <- read STATE ;;
        (if Py.lt new_capacity_ml (current_water_level_ml s)
         then write (with_STATE (set_current_water_level_ml new_capacity_ml))
         else ret tt) ;;
        write (with_STATE (set_water_tank_capacity_ml new_capacity_ml))) ;;
     save_config ;;
     s <- read STATE ;;
     ret (success [("water_per_spray_ml"%string, water_per_spray_ml s);
                   ("water_tank_capacity_ml"%string, water_tank_capacity_ml s)]))
    (except_ValueError (ret (error 400))).

Definition reset_water_level : M Response :=
  s <- read STATE ;;
  write (with_STATE (set_current_water_level_ml (water_tank_capacity_ml s))) ;;
  write (with_STATE (set_water_log [])) ;;
  save_config ;;
  s <- read STATE ;;
  ret (success [("current_water_level_ml"%string, current_water_level_ml s)]).

(** *** Pump and motor control *)

Definition pause_motor_for (duration_s : Q) : M unit :=
  now <- time_time ;;
  s <- read STATE ;;
  match motor_paused_prev_speed s with
  | None => write (with_STATE (set_motor_paused_prev_speed (Some (motor_speed s))))
  | Some _ => ret tt
  end ;;
  write (with_STATE (set_motor_speed_attr 0.0)) ;;
  write (with_motor_pwm 0.0) ;;
  s <- read STATE ;;
  write (with_STATE (set_motor_paused_until
           (Py.max (motor_paused_until s) (now + duration_s)))).

Definition activate_pump_on_detect : M unit :=
  t <- time_time ;;
  s <- read STATE ;;
  if Py.lt t (last_detection_time s + detection_cooldown_s s) then ret tt
  else
    t <- time_time ;;
    if Py.gt t (pump_off_time s) && Py.gt (current_water_level_ml s) 0 then
      ok <- log_water_usage (pump_detection_duration s) "Auto" ;;
      if ok : bool then
        write (with_pump_dir true) ;;
        write (with_pump_pwm SPEED_PUMP_DUTY_CYCLE) ;;
        t <- time_time ;;
        s <- read STATE ;;
        write (with_STATE (set_pump_off_time (t + pump_detection_duration s))) ;;
        t <- time_time ;;
        write (with_STATE (set_last_detection_time t)) ;;
        s <- read STATE ;;
        let pause_duration := default 1.0 (motor_pause_on_detection_s s) in
        pause_motor_for pause_duration
      else ret tt
    else if Py.le (current_water_level_ml s) 0 then
      t <- time_time ;;
      ret tt
    else ret tt.

Definition check_and_stop_pump : M unit :=
  t <- time_time ;;
  s <- read STATE ;;
  if Py.gt t (pump_off_time s) && negb (Py.eq (pump_off_time s) 0.0) then
    write (with_pump_pwm 0.0) ;;
    write (with_pump_dir false) ;;
    write (with_STATE (set_pump_off_time 0.0))
  else ret tt.

Definition check_and_resume_motor : M unit :=
  s <- read STATE ;;
  match motor_paused_prev_speed s with
  | None => ret tt
  | Some prev =>
      t <- time_time ;;
      if Py.gt t (motor_paused_until s) then
        (if Py.eq (motor_speed s) 0.0 then
           write (with_STATE (set_motor_speed_attr prev)) ;;
           write (with_motor_pwm prev)
         else ret tt) ;;
        write (with_STATE (set_motor_paused_prev_speed None)) ;;
        write (with_STATE (set_motor_paused_until 0.0))
      else ret tt
  end.

End Program.

(** ** Concrete environments used to run the model *)

(** A clock that advances one second per read, a fixed date string, and a
    [float()] that knows a few spellings. *)
Definition clock0 (n : nat) : Q := inject_Z (Z.of_nat n).
Definition wall0 (n : nat) : string := "2025-01-01 12:00:00".
Definition float0 (s : string) : option Q :=
  if String.eqb s "0.5" then Some 0.5
  else if String.eqb s "2" then Some 2
  else None.

(** The clock of the end-to-end scenario: six reads at [t = 1000] (one
    detection that fires), then [t = 1000.3], [t = 1000.5] and [t = 1001.5]. *)
Definition scenario_clock (n : nat) : Q :=
  if (n <? 6)%nat then 1000
  else if (n =? 6)%nat then 1000.3
  else if (n =? 7)%nat then 1000.5
  else 1001.5.

(** The world right after a start-up that found the default record on disk. *)
Definition running_STATE : WeedBotState :=
  {| motor_speed := 0.0;
     pump_detection_duration := 0.2;
     pump_off_time := 0.0;
     water_per_spray_ml := 10.0;
     water_tank_capacity_ml := 200.0;
     current_water_level_ml := 200.0;
     water_log := [];
     detection_cooldown_s := 1.0;
     last_detection_time := 0.0;
     motor_paused_until := 0.0;
     motor_paused_prev_speed := None;
     motor_pause_on_detection_s := Some 1.0 |}.

Definition running_world : World :=
  {| STATE := running_STATE;
     motor_pwm := 0.0;
     pump_pwm := 0.0;
     pump_dir := false;
     config_file := Json DEFAULT_CONFIG;
     clock_reads := 0 |}.

(** The process as it starts: a fresh [STATE], outputs low, and on disk a
    record whose cooldown was edited to 100 s. *)
Definition edited_config : gmap string Q :=
  <[ "detection_cooldown_s"%string := 100 ]> DEFAULT_CONFIG.

Definition starting_world (f : File) : World :=
  {| STATE := fresh_STATE;
     motor_pwm := 0;
     pump_pwm := 0;
     pump_dir := false;
     config_file := f;
     clock_reads := 0 |}.

(** The same robot five clock reads later; in the middle of a spray that ends
    at [t = 100]; paused until [t = 3] with 0.2 put aside; and with a tank of
    one litre. *)
Definition later_world : World := with_clock_reads 5 running_world.

Definition spraying_world : World :=
  with_STATE (set_pump_off_time 100) later_world.

Definition paused_world : World :=
  with_STATE (fun s => set_motor_paused_until 3
                         (set_motor_paused_prev_speed (Some 0.2) s)) later_world.



Definition shrink_body : gmap string json :=
  {[ "water_tank_capacity_ml"%string := JNum 50 ]}.
Definition three_seconds : gmap string json :=
  {[ "duration"%string := JNum 3 ]}.

(** ** Vocabulary of the statements *)

(** [hasattr(STATE, 'motor_pause_on_detection_s')]: true from the moment
    [load_config] has read a file, and never undone afterwards. *)
Definition has_pause_attr (w : World) : Prop :=
  is_Some (motor_pause_on_detection_s (STATE w)).

(** The clamp ranges of the configuration fields. *)
Record config_in_range (s : WeedBotState) : Prop := {
  range_motor_speed : 0 <= motor_speed s <= 1;
  range_pump_detection_duration : 0.1 <= pump_detection_duration s <= 5.0;
  range_detection_cooldown_s : 0.5 <= detection_cooldown_s s <= 30.0;
  range_water_per_spray_ml : 0 < water_per_spray_ml s;
  range_water_tank_capacity_ml : 100 <= water_tank_capacity_ml s;
  range_current_water_level_ml :
    0 <= current_water_level_ml s <= water_tank_capacity_ml s
}.

(** The speed put aside by a pause is a former [motor_speed]. *)
Definition saved_speed_in_range (s : WeedBotState) : Prop :=
  forall v, motor_paused_prev_speed s = Some v -> 0 <= v <= 1.

(** What the calls keep true: the ranges, and a saved speed within [[0, 1]]. *)
Definition ranges_hold (s : WeedBotState) : Prop :=
  config_in_range s /\ saved_speed_in_range s.

(** The same ranges on a stored record, read as [load_config] reads it. *)
Definition stored_in_range (config : gmap string Q) : Prop :=
  0 <= config_get config "motor_speed" "motor_speed" <= 1 /\
  0.1 <= config_get config "pump_detection_duration" "pump_detection_duration" <= 5.0 /\
  0.5 <= config_get config "detection_cooldown_s" "detection_cooldown_s" <= 30.0 /\
  0 < config_get config "water_per_spray_ml" "water_per_spray_ml" /\
  100 <= config_get config "water_tank_capacity_ml" "water_tank_capacity_ml" /\
  0 <= config_get config "current_water_level_ml" "water_tank_capacity_ml"
    <= config_get config "water_tank_capacity_ml" "water_tank_capacity_ml".

(** Everything that can touch the state once the script runs: the routes of
    the Flask app and the three calls of the main loop. *)
Inductive Call : Type :=
| SetSpeed (data : gmap string json)
| StopMotor
| StartMotor
| TestPump (data : gmap string json)
| SetDetectionDuration (data : gmap string json)
| SetCooldown (data : gmap string json)
| SetWaterConfig (data : gmap string json)
| ResetWaterLevel
| Detection
| StopCheck
| ResumeCheck.

Section Traces.

Variable clock : nat -> Q.
Variable wall : nat -> string.
Variable float_of_str : string -> option Q.

Definition call (c : Call) : M unit :=
  match c with
  | SetSpeed data => handle_speed_change float_of_str data ;; ret tt
  | StopMotor => handle_motor_stop float_of_str ;; ret tt
  | StartMotor => handle_motor_start float_of_str ;; ret tt
  | TestPump data => handle_pump_test clock wall float_of_str data ;; ret tt
  | SetDetectionDuration data =>
      handle_detection_duration_change float_of_str data ;; ret tt
  | SetCooldown data => handle_cooldown_change float_of_str data ;; ret tt
  | SetWaterConfig data => set_water_config float_of_str data ;; ret tt
  | ResetWaterLevel => reset_water_level ;; ret tt
  | Detection => activate_pump_on_detect clock wall
  | StopCheck => check_and_stop_pump clock
  | ResumeCheck => check_and_resume_motor clock
  end.

(** A run of calls, one after the other.  An exception ends the call that
    raised it (Flask answers 500, the main loop logs and goes on) and leaves
    the world as that call left it. *)
Fixpoint run (cs : list Call) (w : World) : World :=
  match cs with
  | [] => w
  | c :: cs' => run cs' (exec (call c) w)
  end.

(** The state object after a consume that goes through: the level is reduced
    and the entry appended, the log cut to its last 50. *)
Definition sprayed (duration : Q) (type : string) (w : World) : WeedBotState :=
  let s := STATE w in
  let entry := {| log_time := wall (clock_reads w);
                  log_duration := duration;
                  log_amount := water_per_spray_ml s;
                  log_type := type |} in
  set_water_log (slice_last 50 (water_log s ++ [entry]))
    (set_current_water_level_ml
       (current_water_level_ml s - water_per_spray_ml s) s).



End Traces.




(** A state with the durations blanked: the stop timer and the ['duration']
    entries of the log. *)
Definition blank_duration (e : LogEntry) : LogEntry :=
  {| log_time := log_time e; log_duration := 0;
     log_amount := log_amount e; log_type := log_type e |}.

Definition blank_durations (s : WeedBotState) : WeedBotState :=
  set_pump_off_time 0 (set_water_log (map blank_duration (water_log s)) s).

(** ** The rest of the script *)

(** The body of the answer of [/get_status]. *)
Record Status : Type := {
  status_motor_speed : Q;
  status_pump_detection_duration : Q;
  status_water_per_spray_ml : Q;
  status_water_tank_capacity_ml : Q;
  status_current_water_level_ml : Q;
  status_detection_cooldown_s : Q;
  status_water_log : list LogEntry
}.

Definition get_status : M Status :=
  s <- read STATE ;;
  ret {| status_motor_speed := motor_speed s;
         status_pump_detection_duration := pump_detection_duration s;
         status_water_per_spray_ml := water_per_spray_ml s;
         status_water_tank_capacity_ml := water_tank_capacity_ml s;
         status_current_water_level_ml := current_water_level_ml s;
         status_detection_cooldown_s := detection_cooldown_s s;
         status_water_log := water_log s |}.

Section MainLoop.

Variable clock : nat -> Q.
Variable wall : nat -> string.

(** One pass of the body of [while cap.isOpened()] once a frame was read and
    the model has answered: the time stamp taken for the frame buffer, the
    detection branch and the two checks.  [except Exception] catches whatever
    they raise and the loop goes on. *)
Definition control_cycle (detection_found : bool) : M unit :=
  try_except
    (frame_time <- time_time clock ;;
     (if detection_found then activate_pump_on_detect clock wall else ret tt) ;;
     check_and_stop_pump clock ;;
     check_and_resume_motor clock)
    (fun _ => ret tt).

(** Cycles one after the other, [detections] telling for each frame whether
    the model found something. *)
Fixpoint control_loop (detections : list bool) (w : World) : World :=
  match detections with
  | [] => w
  | d :: ds => control_loop ds (exec (control_cycle d) w)
  end.

End MainLoop.

(** [resize_negative_images.process_image]: the box [(left, top, right,
    bottom)] handed to [img.crop] for an image of the given size. *)
Definition crop_area (width height : Z) : Z * Z * Z * Z :=
  if (width >? height)%Z then
    ((width - height) / 2, 0, (width + height) / 2, height)%Z
  else
    (0, (height - width) / 2, width, (height + width) / 2)%Z.

(** [add_negative_images]: the three slices [all_images[:train_count]],
    [all_images[train_count : train_count + valid_count]] and
    [all_images[train_count + valid_count :]]. *)
Definition split_images {A} (train_count valid_count : nat) (all_images : list A)
  : list A * list A * list A :=
  (take train_count all_images,
   take valid_count (drop train_count all_images),
   drop (train_count + valid_count) all_images).

(** ** Vocabulary of the further statements *)

(** The pump output agrees with the stop timer: either the pump runs at its
    duty cycle with a stop time ahead, or it is off and the timer is [0.0]. *)
Definition pump_consistent (w : World) : Prop :=
  (pump_dir w = true /\ pump_pwm w = SPEED_PUMP_DUTY_CYCLE /\
   0 < pump_off_time (STATE w)) \/
  (pump_dir w = false /\ pump_pwm w = 0.0 /\ pump_off_time (STATE w) = 0.0).

(** The motor output is the desired speed; without a saved speed there is no
    deadline, and with one the desired speed is [0.0]. *)
Definition motor_consistent (w : World) : Prop :=
  motor_pwm w = motor_speed (STATE w) /\
  (motor_paused_prev_speed (STATE w) = None ->
   motor_paused_until (STATE w) = 0.0) /\
  (forall v, motor_paused_prev_speed (STATE w) = Some v ->
   motor_speed (STATE w) = 0.0).

(** The file on disk holds the current value of every persisted field but
    [motor_speed], which a pause changes without saving. *)
Definition file_up_to_date (w : World) : Prop :=
  exists config : gmap string Q,
    config_file w = Json config /\
    config !! "pump_detection_duration"%string = Some (pump_detection_duration (STATE w)) /\
    config !! "water_per_spray_ml"%string = Some (water_per_spray_ml (STATE w)) /\
    config !! "water_tank_capacity_ml"%string = Some (water_tank_capacity_ml (STATE w)) /\
    config !! "current_water_level_ml"%string = Some (current_water_level_ml (STATE w)) /\
    config !! "detection_cooldown_s"%string = Some (detection_cooldown_s (STATE w)) /\
    config !! "motor_pause_on_detection_s"%string = motor_pause_on_detection_s (STATE w).

(** The calls that ask for a spray. *)
Definition is_spray_attempt (c : Call) : bool :=
  match c with
  | TestPump _ | Detection => true
  | _ => false
  end.

(** The one handler that writes the pump outputs and the stop timer, which
    the unlocked stop check writes too: [/test_pump]. *)
Definition is_test_pump (c : Call) : bool :=
  match c with
  | TestPump _ => true
  | _ => false
  end.

(** The calls that can answer 400 after a write: [/set_water_config]. *)
Definition is_water_config (c : Call) : bool :=
  match c with
  | SetWaterConfig _ => true
  | _ => false
  end.

(** A clock that starts at [t = 1000] and advances one second per read. *)
Definition epoch_clock (n : nat) : Q := 1000 + inject_Z (Z.of_nat n).

(** A world in the middle of a pause, consistent with it: motor at rest, 0.2
    put aside, deadline at [t = 3]. *)
Definition resting_world : World :=
  with_STATE (fun s => set_motor_paused_until 3
                         (set_motor_paused_prev_speed (Some 0.2) s)) later_world.

(** The robot driving at 0.2, five clock reads after start-up. *)
Definition driving_world : World :=
  with_motor_pwm 0.2 (with_STATE (set_motor_speed_attr 0.2) later_world).

(** The robot spraying: pump on at its duty cycle, due to stop at [t = 3]. *)
Definition pumping_world : World :=
  with_pump_dir true
    (with_pump_pwm SPEED_PUMP_DUTY_CYCLE
       (with_STATE (set_pump_off_time 3) later_world)).

(** The robot with 5 ml left. *)
Definition dry_world : World :=
  with_STATE (set_current_water_level_ml 5) later_world.

(** ** Properties *)

(** *** Comparisons, [min] and [max] *)

Lemma lt_iff a b : Py.lt a b = true <-> a < b.
Proof.
  unfold Py.lt. rewrite negb_true_iff, <- not_true_iff_false, Qle_bool_iff.
  split; [apply Qnot_le_lt | apply Qlt_not_le].
Qed.

Lemma lt_false_iff a b : Py.lt a b = false <-> b <= a.
Proof.
  unfold Py.lt. rewrite negb_false_iff. apply Qle_bool_iff.
Qed.

Lemma gt_iff a b : Py.gt a b = true <-> b < a.
Proof. apply lt_iff. Qed.

Lemma gt_false_iff a b : Py.gt a b = false <-> a <= b.
Proof. apply lt_false_iff. Qed.

Lemma ge_iff a b : Py.ge a b = true <-> b <= a.
Proof. apply Qle_bool_iff. Qed.

Lemma ge_false_iff a b : Py.ge a b = false <-> a < b.
Proof.
  unfold Py.ge. rewrite <- not_true_iff_false, Qle_bool_iff.
  split; [apply Qnot_le_lt | apply Qlt_not_le].
Qed.

Lemma le_iff a b : Py.le a b = true <-> a <= b.
Proof. apply Qle_bool_iff. Qed.

Lemma le_false_iff a b : Py.le a b = false <-> b < a.
Proof. apply ge_false_iff. Qed.

Lemma eq_iff a b : Py.eq a b = true <-> a == b.
Proof. apply Qeq_bool_iff. Qed.

Lemma eq_false_iff a b : Py.eq a b = false <-> ~ a == b.
Proof. rewrite <- eq_iff. symmetry. apply not_true_iff_false. Qed.

Lemma max_spec a b : (a < b /\ Py.max a b = b) \/ (b <= a /\ Py.max a b = a).
Proof.
  unfold Py.max. destruct (Py.gt b a) eqn:E.
  - left. apply gt_iff in E. auto.
  - right. apply gt_false_iff in E. auto.
Qed.

Lemma min_spec a b : (b < a /\ Py.min a b = b) \/ (a <= b /\ Py.min a b = a).
Proof.
  unfold Py.min. destruct (Py.lt b a) eqn:E.
  - left. apply lt_iff in E. auto.
  - right. apply lt_false_iff in E. auto.
Qed.

Lemma max_lower a b : a <= Py.max a b.
Proof. destruct (max_spec a b) as [[? ->]|[? ->]]; lra. Qed.



(** *** Proof automation *)

(** Statements are run by unfolding the monad and splitting on every test the
    code makes, innermost first; the boolean tests are then read back as
    order facts and handed to [lra]. *)

Ltac run_with defs :=
  unfold exec, result; unfold defs;
  unfold bind, try_except, except_ValueError, read, write, ret, raise,
    time_time, datetime_now; cbn [fst snd].

Ltac unfold_program :=
  unfold call, handle_speed_change, handle_motor_stop, handle_motor_start,
    handle_pump_test, handle_detection_duration_change, handle_cooldown_change,
    set_water_config, reset_water_level, activate_pump_on_detect,
    check_and_stop_pump, check_and_resume_motor, pause_motor_for,
    set_motor_speed, log_water_usage, save_config, float,
    dict_get, dict_get_default;
  unfold exec, result, bind, try_except, except_ValueError, read, write, ret,
    raise, time_time, datetime_now.

Ltac destruct_innermost x :=
  lazymatch x with
  | context [match ?y with _ => _ end] => destruct_innermost y
  | _ => let E := fresh "E" in destruct x eqn:E
  end.

Ltac split_cases :=
  repeat (cbn -[slice_last Py.max Py.min Py.lt Py.gt Py.ge Py.le Py.eq config_dict];
          match goal with
          | |- context [match ?x with _ => _ end] => destruct_innermost x
          end);
  cbn -[slice_last Py.max Py.min Py.lt Py.gt Py.ge Py.le Py.eq config_dict] in *.

Ltac reflect_cmp :=
  repeat match goal with
    | H : Py.lt _ _ = true |- _ => apply lt_iff in H
    | H : Py.lt _ _ = false |- _ => apply lt_false_iff in H
    | H : Py.gt _ _ = true |- _ => apply gt_iff in H
    | H : Py.gt _ _ = false |- _ => apply gt_false_iff in H
    | H : Py.ge _ _ = true |- _ => apply ge_iff in H
    | H : Py.ge _ _ = false |- _ => apply ge_false_iff in H
    | H : Py.le _ _ = true |- _ => apply le_iff in H
    | H : Py.le _ _ = false |- _ => apply le_false_iff in H
    | H : _ && _ = true |- _ => apply andb_true_iff in H; destruct H
    | H : _ && _ = false |- _ => apply andb_false_iff in H; destruct H
    | H : negb _ = true |- _ => apply negb_true_iff in H
    | H : negb _ = false |- _ => apply negb_false_iff in H
    | H : Py.eq _ _ = true |- _ => apply eq_iff in H
    | H : Py.eq _ _ = false |- _ => apply eq_false_iff in H
    end.

Ltac absurd_cmp := exfalso; reflect_cmp; first [ lra | tauto | congruence ].

Ltac case_minmax :=
  repeat match goal with
    | |- context [Py.min ?a ?b] =>
        let H := fresh "Hmin" in
        destruct (min_spec a b) as [[? H] | [? H]]; rewrite !H in *
    | |- context [Py.max ?a ?b] =>
        let H := fresh "Hmax" in
        destruct (max_spec a b) as [[? H] | [? H]]; rewrite !H in *
    end.

Ltac solve_ranges :=
  match goal with
  | H : ranges_hold _ |- _ =>
      let Hr := fresh "Hr" in let Hs := fresh "Hs" in
      destruct H as [Hr Hs]; destruct Hr; unfold saved_speed_in_range in Hs
  end;
  split; [constructor | unfold saved_speed_in_range];
  cbn -[Py.max Py.min] in *;
  repeat match goal with
    | H : forall v, ?p = Some v -> _, E : ?p = Some ?x |- _ =>
        pose proof (H x E); clear H
    end;
  intros; simplify_eq; reflect_cmp; case_minmax;
  first [ lra | solve [eauto] ].

(** *** Slices *)

Lemma slice_last_length {A} (n : nat) (l : list A) :
  (length (slice_last n l) <= n)%nat.
Proof. unfold slice_last. rewrite length_drop. lia. Qed.



Lemma slice_last_map {A B} (f : A -> B) (n : nat) (l : list A) :
  slice_last n (map f l) = map f (slice_last n l).
Proof.
  unfold slice_last. rewrite length_map. apply skipn_map.
Qed.

(** *** Water accounting *)

Section Ledger.

Variable wall : nat -> string.

Lemma log_water_usage_True duration type w pause :
  motor_pause_on_detection_s (STATE w) = Some pause ->
  water_per_spray_ml (STATE w) <= current_water_level_ml (STATE w) ->
  log_water_usage wall duration type w =
    (Ret true,
     {| STATE := sprayed wall duration type w;
        motor_pwm := motor_pwm w;
        pump_pwm := pump_pwm w;
        pump_dir := pump_dir w;
        config_file := Json (config_dict (sprayed wall duration type w) pause);
        clock_reads := S (clock_reads w) |}).
Proof.
  intros Hp Hcmp. apply ge_iff in Hcmp.
  run_with log_water_usage. cbn. rewrite Hcmp. cbn.
  unfold save_config, bind, read, write. cbn. rewrite Hp. reflexivity.
Qed.

Lemma log_water_usage_False duration type w :
  current_water_level_ml (STATE w) < water_per_spray_ml (STATE w) ->
  log_water_usage wall duration type w =
    (Ret false, with_clock_reads (S (clock_reads w)) w).
Proof.
  intros Hcmp. apply ge_false_iff in Hcmp.
  run_with log_water_usage. cbn. rewrite Hcmp. reflexivity.
Qed.

(** C1.  When the tank holds at least [water_per_spray_ml],
    [log_water_usage] returns [True] and the level drops by exactly that
    amount; when it holds less, it returns [False] and neither the state
    object (level and log included) nor the configuration file changes. *)
Theorem log_water_usage_all_or_nothing (duration : Q) (type : string) (w : World) :
  let amount := water_per_spray_ml (STATE w) in
  let level := current_water_level_ml (STATE w) in
  let w' := exec (log_water_usage wall duration type) w in
  (has_pause_attr w ->
   amount <= level ->
     result (log_water_usage wall duration type) w = Ret true /\
     current_water_level_ml (STATE w') = level - amount) /\
  (level < amount ->
     result (log_water_usage wall duration type) w = Ret false /\
     STATE w' = STATE w /\
     config_file w' = config_file w).
Proof.
  intros amount level w'. subst w'. unfold exec, result.
  split.
  - intros [p Hp] Hcmp. rewrite (log_water_usage_True _ _ _ _ Hp Hcmp). auto.
  - intros Hcmp. rewrite (log_water_usage_False _ _ _ Hcmp). auto.
Qed.

End Ledger.

(** *** The log stays within 50 entries *)

Section LogBound.

Variable clock : nat -> Q.
Variable wall : nat -> string.
Variable float_of_str : string -> option Q.

Lemma call_log_bound (c : Call) (w : World) :
  (length (water_log (STATE w)) <= 50)%nat ->
  (length (water_log (STATE (exec (call clock wall float_of_str c) w))) <= 50)%nat.
Proof.
  intros H. destruct c; unfold_program; split_cases;
    solve [ assumption | apply slice_last_length | lia ].
Qed.






End LogBound.

(** *** Cooldown, pause and resume *)

Section Actuation.

Variable clock : nat -> Q.
Variable wall : nat -> string.
Variable float_of_str : string -> option Q.

(** C2.  A detection whose clock reading is below
    [last_detection_time + detection_cooldown_s] returns at once: only the
    count of clock reads moves, state, outputs and file are untouched.  A
    reading at or above that sum, the sum itself included, gets past the
    check, and the spray fires as soon as the pump timer has run out and the
    tank holds one dose. *)
Theorem cooldown_gate_inclusive (w : World) :
  let now := clock (clock_reads w) in
  let s := STATE w in
  (now < last_detection_time s + detection_cooldown_s s ->
     activate_pump_on_detect clock wall w =
       (Ret tt, with_clock_reads (1 + clock_reads w) w)) /\
  (last_detection_time s + detection_cooldown_s s <= now ->
     has_pause_attr w ->
     pump_off_time s < clock (1 + clock_reads w) ->
     0 < current_water_level_ml s ->
     water_per_spray_ml s <= current_water_level_ml s ->
     let w' := exec (activate_pump_on_detect clock wall) w in
     result (activate_pump_on_detect clock wall) w = Ret tt /\
     pump_dir w' = true /\ pump_pwm w' = SPEED_PUMP_DUTY_CYCLE /\
     current_water_level_ml (STATE w') =
       current_water_level_ml s - water_per_spray_ml s /\
     pump_off_time (STATE w') =
       clock (3 + clock_reads w) + pump_detection_duration s /\
     last_detection_time (STATE w') = clock (4 + clock_reads w)).
Proof.
  intros now s. subst now s. split.
  - intros H. unfold_program. split_cases; try absurd_cmp; auto.
  - intros Hcool [p Hp] Hoff Hpos Hwater w'. subst w'.
    unfold_program. split_cases; try absurd_cmp; auto 10.
Qed.

(** C3.  [pause_motor_for] sets [motor_paused_until] to the larger of its old
    value and the clock reading plus the duration, so the deadline never moves
    back; two pauses of 2 s issued one second apart, starting with no deadline
    beyond [now + 3], end at [now + 3]. *)
Theorem pause_extends_never_shortens (duration_s : Q) (w : World) :
  let now := clock (clock_reads w) in
  let old := motor_paused_until (STATE w) in
  let w1 := exec (pause_motor_for clock duration_s) w in
  motor_paused_until (STATE w1) = Py.max old (now + duration_s) /\
  motor_paused_until (STATE w1) == Qmax old (now + duration_s) /\
  old <= motor_paused_until (STATE w1) /\
  (clock (1 + clock_reads w) == now + 1.0 ->
   old <= now + 3.0 ->
   let w2 := exec (pause_motor_for clock 2.0) (exec (pause_motor_for clock 2.0) w) in
   motor_paused_until (STATE w2) == now + 3.0).
Proof.
  intros now old w1. subst now old w1.
  assert (Hstep : forall d v,
            motor_paused_until (STATE (exec (pause_motor_for clock d) v)) =
            Py.max (motor_paused_until (STATE v)) (clock (clock_reads v) + d) /\
            clock_reads (exec (pause_motor_for clock d) v) = S (clock_reads v)).
  { intros d v. unfold_program. split_cases; auto. }
  destruct (Hstep duration_s w) as [-> _].
  split; [reflexivity | split; [| split]].
  - destruct (max_spec (motor_paused_until (STATE w))
                       (clock (clock_reads w) + duration_s)) as [[Hlt ->] | [Hle ->]].
    + symmetry. apply Q.max_r. lra.
    + symmetry. apply Q.max_l. exact Hle.
  - apply max_lower.
  - intros Hclock Hold w2. subst w2.
    destruct (Hstep 2.0 (exec (pause_motor_for clock 2.0) w)) as [-> _].
    destruct (Hstep 2.0 w) as [-> ->].
    change (S (clock_reads w)) with (1 + clock_reads w)%nat.
    set (a := motor_paused_until (STATE w)) in *.
    set (t0 := clock (clock_reads w)) in *.
    set (t1 := clock (1 + clock_reads w)) in *.
    destruct (max_spec a (t0 + 2.0)) as [[? ->] | [? ->]];
      match goal with
      | |- Py.max ?x ?y == _ => destruct (max_spec x y) as [[? ->] | [? ->]]
      end; lra.
Qed.

(** C4.  With a saved speed on record, [check_and_resume_motor] does nothing
    until the clock is past [motor_paused_until]; past it, both pause fields
    are cleared, and the saved speed goes back to [motor_speed] and to the
    motor exactly when [motor_speed] is still [0.0].  A [set_motor_speed] that
    went through has cleared both fields, so a resume check after it leaves
    the world as it is. *)
Theorem resume_only_if_untouched (prev : Q) (w : World) :
  motor_paused_prev_speed (STATE w) = Some prev ->
  let now := clock (clock_reads w) in
  let s := STATE w in
  let w' := exec (check_and_resume_motor clock) w in
  (now <= motor_paused_until s ->
     STATE w' = s /\ motor_pwm w' = motor_pwm w) /\
  (motor_paused_until s < now ->
     motor_paused_prev_speed (STATE w') = None /\
     motor_paused_until (STATE w') = 0.0 /\
     (motor_speed s == 0 ->
        motor_speed (STATE w') = prev /\ motor_pwm w' = prev) /\
     (~ motor_speed s == 0 ->
        motor_speed (STATE w') = motor_speed s /\ motor_pwm w' = motor_pwm w)) /\
  (forall new_speed : json,
     result (set_motor_speed float_of_str new_speed) w = Ret true ->
     let w1 := exec (set_motor_speed float_of_str new_speed) w in
     motor_paused_prev_speed (STATE w1) = None /\
     motor_paused_until (STATE w1) = 0.0 /\
     exec (check_and_resume_motor clock) w1 = w1).
Proof.
  intros Hprev now s w'. subst now s w'. split; [| split].
  - intros H. unfold_program. rewrite Hprev. split_cases; try absurd_cmp; auto.
  - intros H. unfold_program. rewrite Hprev.
    split_cases; try absurd_cmp; repeat split; try reflexivity;
      intros; absurd_cmp.
  - intros v. unfold_program. split_cases; intros Hres;
      try discriminate; auto.
Qed.

(** C6.  A detection whose second clock reading is not past [pump_off_time]
    changes neither state, outputs nor file.  A test spray has no such check:
    given one dose of water it consumes it, logs the entry, switches the pump
    on and overwrites [pump_off_time] with its own reading plus the clamped
    duration, whatever [pump_off_time] held. *)
Theorem test_spray_overrides_active_spray (w : World) :
  let s := STATE w in
  (clock (1 + clock_reads w) <= pump_off_time s ->
     let w' := exec (activate_pump_on_detect clock wall) w in
     STATE w' = s /\ pump_pwm w' = pump_pwm w /\ pump_dir w' = pump_dir w /\
     motor_pwm w' = motor_pwm w /\ config_file w' = config_file w) /\
  (forall (data : gmap string json) (x : Q),
     data !! "duration"%string = Some (JNum x) ->
     has_pause_attr w ->
     water_per_spray_ml s <= current_water_level_ml s ->
     let duration := Py.max 0.1 (Py.min 10.0 x) in
     let w' := exec (handle_pump_test clock wall float_of_str data) w in
     result (handle_pump_test clock wall float_of_str data) w =
       Ret (success [("duration"%string, duration)]) /\
     STATE w' =
       set_pump_off_time (clock (1 + clock_reads w) + duration)
         (sprayed wall duration "Test" w) /\
     pump_dir w' = true /\ pump_pwm w' = SPEED_PUMP_DUTY_CYCLE).
Proof.
  intros s. subst s. split.
  - intros H w'. subst w'. unfold_program. split_cases; try absurd_cmp; auto.
  - intros data x Hd [p Hp] Hwater duration w'. subst duration w'.
    unfold_program. rewrite Hd. split_cases; try absurd_cmp; auto.
Qed.

End Actuation.

(** *** Clamp ranges *)

Section Ranges.

Variable clock : nat -> Q.
Variable wall : nat -> string.
Variable float_of_str : string -> option Q.

Lemma call_keeps_ranges (c : Call) (w : World) :
  ranges_hold (STATE w) ->
  ranges_hold (STATE (exec (call clock wall float_of_str c) w)).
Proof.
  intros H. destruct c; unfold_program; split_cases; try assumption.
  all: solve_ranges.
Qed.

Lemma run_keeps_ranges (cs : list Call) (w : World) :
  ranges_hold (STATE w) ->
  ranges_hold (STATE (run clock wall float_of_str cs w)).
Proof.
  revert w. induction cs as [| c cs IH]; intros w H; cbn.
  - exact H.
  - apply IH, call_keeps_ranges, H.
Qed.

Lemma load_config_Json (config : gmap string Q) (w : World) :
  config_file w = Json config ->
  load_config w =
    (Ret tt,
     with_STATE (fun s =>
       {| motor_speed := config_get config "motor_speed" "motor_speed";
          pump_detection_duration :=
            config_get config "pump_detection_duration" "pump_detection_duration";
          pump_off_time := pump_off_time s;
          water_per_spray_ml :=
            config_get config "water_per_spray_ml" "water_per_spray_ml";
          water_tank_capacity_ml :=
            config_get config "water_tank_capacity_ml" "water_tank_capacity_ml";
          current_water_level_ml :=
            config_get config "current_water_level_ml" "water_tank_capacity_ml";
          water_log := water_log s;
          detection_cooldown_s :=
            config_get config "detection_cooldown_s" "detection_cooldown_s";
          last_detection_time := last_detection_time s;
          motor_paused_until := motor_paused_until s;
          motor_paused_prev_speed := motor_paused_prev_speed s;
          motor_pause_on_detection_s :=
            Some (config_get config "motor_pause_on_detection_s"
                             "motor_pause_on_detection_s") |}) w).
Proof.
  intros Hf. unfold load_config, try_except, bind, read, write, ret.
  rewrite Hf. reflexivity.
Qed.

(** C7, as the code has it.  Numbers being finite, every call of the
    running program, handler or loop step, keeps all six fields within their
    ranges.  [load_config] clamps nothing: a stored value, whatever it is,
    becomes the field, and a missing key gives the default (for the level,
    the default capacity).  A process started on a record within range
    therefore stays within range for good, the start-up itself only forcing
    [motor_speed] to [0.0]. *)
Theorem ranges_kept_by_calls_copied_by_load :
  (forall (cs : list Call) (w : World),
     config_in_range (STATE w) ->
     saved_speed_in_range (STATE w) ->
     config_in_range (STATE (run clock wall float_of_str cs w))) /\
  (forall (config : gmap string Q) (w : World),
     config_file w = Json config ->
     let s' := STATE (exec load_config w) in
     (forall x, config !! "motor_speed"%string = Some x -> motor_speed s' = x) /\
     (forall x, config !! "pump_detection_duration"%string = Some x ->
        pump_detection_duration s' = x) /\
     (forall x, config !! "water_per_spray_ml"%string = Some x ->
        water_per_spray_ml s' = x) /\
     (forall x, config !! "water_tank_capacity_ml"%string = Some x ->
        water_tank_capacity_ml s' = x) /\
     (forall x, config !! "current_water_level_ml"%string = Some x ->
        current_water_level_ml s' = x) /\
     (forall x, config !! "detection_cooldown_s"%string = Some x ->
        detection_cooldown_s s' = x) /\
     (config !! "motor_speed"%string = None -> motor_speed s' = 0.2) /\
     (config !! "pump_detection_duration"%string = None ->
        pump_detection_duration s' = 0.2) /\
     (config !! "water_per_spray_ml"%string = None -> water_per_spray_ml s' = 10.0) /\
     (config !! "water_tank_capacity_ml"%string = None ->
        water_tank_capacity_ml s' = 200.0) /\
     (config !! "current_water_level_ml"%string = None ->
        current_water_level_ml s' = 200.0) /\
     (config !! "detection_cooldown_s"%string = None ->
        detection_cooldown_s s' = 1.0)) /\
  (forall (config : gmap string Q) (w : World) (cs : list Call),
     config_file w = Json config ->
     stored_in_range config ->
     motor_paused_prev_speed (STATE w) = None ->
     result startup w = Ret tt /\
     config_in_range (STATE (exec startup w)) /\
     config_in_range (STATE (run clock wall float_of_str cs (exec startup w)))).
Proof.
  split; [| split].
  - intros cs w Hr Hs. apply run_keeps_ranges. split; assumption.
  - intros config w Hf s'. subst s'.
    unfold exec. rewrite (load_config_Json config w Hf).
    cbn -[config_get]. unfold config_get.
    repeat apply conj; intros;
      match goal with H : _ !! _ = _ |- _ => rewrite H end; reflexivity.
  - intros config w cs Hf Hst Hnone.
    assert (Hstart : result startup w = Ret tt /\ ranges_hold (STATE (exec startup w))).
    { unfold exec, result, startup, bind.
      rewrite (load_config_Json config w Hf).
      unfold write, save_config, bind, read, write. cbn.
      unfold stored_in_range in Hst. destruct Hst as (? & ? & ? & ? & ? & ?).
      split; [reflexivity | split].
      - constructor; cbn; try tauto. lra.
      - unfold saved_speed_in_range. cbn. rewrite Hnone. discriminate. }
    destruct Hstart as [Hres Hinv].
    split; [exact Hres | split].
    + apply Hinv.
    + apply run_keeps_ranges, Hinv.
Qed.

(** The attribute [save_config] needs is there once start-up has completed,
    and no call removes it. *)
Lemma call_keeps_pause_attr (c : Call) (w : World) :
  has_pause_attr w ->
  has_pause_attr (exec (call clock wall float_of_str c) w).
Proof.
  unfold has_pause_attr. intros H.
  destruct c; unfold_program; split_cases;
    solve [ assumption
          | match goal with
            | E : motor_pause_on_detection_s _ = _ |- _ => rewrite E; assumption
            end ].
Qed.

Lemma startup_sets_pause_attr (w : World) :
  result startup w = Ret tt -> has_pause_attr (exec startup w).
Proof.
  unfold has_pause_attr, startup, load_config, save_config.
  unfold exec, result, bind, try_except, read, write, ret, raise.
  split_cases; intros H; solve [ discriminate | eauto ].
Qed.

Lemma running_has_pause_attr (cs : list Call) (w : World) :
  result startup w = Ret tt ->
  has_pause_attr (run clock wall float_of_str cs (exec startup w)).
Proof.
  intros H. apply startup_sets_pause_attr in H. revert H.
  generalize (exec startup w). induction cs as [| c cs IH]; intros v H; cbn.
  - exact H.
  - apply IH, call_keeps_pause_attr, H.
Qed.

End Ranges.

(** *** Validation in the handlers *)

Section Validation.

Variable clock : nat -> Q.
Variable wall : nat -> string.
Variable float_of_str : string -> option Q.


End Validation.

(** *** Capacity changes and spray volume *)

Lemma last_slice_last_snoc {A} (n : nat) (l : list A) (x : A) :
  last (slice_last (S n) (l ++ [x])) = Some x.
Proof.
  unfold slice_last. rewrite length_app. cbn [length].
  rewrite drop_app_le by lia. apply last_snoc.
Qed.

Section Water.

Variable clock : nat -> Q.
Variable wall : nat -> string.
Variable float_of_str : string -> option Q.

(** C9, as the code has it.  A requested capacity of 50 ml is first raised to
    the minimum of 100 ml; with 200 ml in the tank the level is then cut to
    that capacity, 100 ml. *)
Theorem capacity_50_leaves_level_100 (data : gmap string json) (w : World) :
  data !! "water_tank_capacity_ml"%string = Some (JNum 50) ->
  data !! "water_per_spray_ml"%string = None ->
  current_water_level_ml (STATE w) == 200 ->
  let w' := exec (set_water_config float_of_str data) w in
  current_water_level_ml (STATE w') == 100 /\
  water_tank_capacity_ml (STATE w') == 100.
Proof.
  intros Hcap Hspray Hlevel w'. subst w'.
  unfold_program. rewrite Hcap, Hspray.
  assert (Hmax : Py.max 100.0 50 = 100.0) by reflexivity.
  split_cases; rewrite ?Hmax in *; reflect_cmp; split; lra.
Qed.

(** C10.  With one dose in the tank, a test spray of any duration and an
    automatic spray both take exactly [water_per_spray_ml] off the level and
    write that amount into their log entry.  Two test sprays of different
    durations leave states that agree once the stop timer and the ['duration']
    entries are blanked, and the same file and outputs; changing the configured
    detection duration changes neither the level nor the amounts an automatic
    spray leaves. *)
Theorem spray_volume_ignores_duration (w : World) :
  has_pause_attr w ->
  let s := STATE w in
  water_per_spray_ml s <= current_water_level_ml s ->
  (forall (data : gmap string json) (x : Q),
     data !! "duration"%string = Some (JNum x) ->
     let w' := exec (handle_pump_test clock wall float_of_str data) w in
     current_water_level_ml (STATE w') =
       current_water_level_ml s - water_per_spray_ml s /\
     last (water_log (STATE w')) =
       Some {| log_time := wall (clock_reads w);
               log_duration := Py.max 0.1 (Py.min 10.0 x);
               log_amount := water_per_spray_ml s;
               log_type := "Test" |}) /\
  (last_detection_time s + detection_cooldown_s s <= clock (clock_reads w) ->
   pump_off_time s < clock (1 + clock_reads w) ->
   0 < current_water_level_ml s ->
   let w' := exec (activate_pump_on_detect clock wall) w in
   current_water_level_ml (STATE w') =
     current_water_level_ml s - water_per_spray_ml s /\
   last (water_log (STATE w')) =
     Some {| log_time := wall (2 + clock_reads w);
             log_duration := pump_detection_duration s;
             log_amount := water_per_spray_ml s;
             log_type := "Auto" |}) /\
  (forall (data1 data2 : gmap string json) (x1 x2 : Q),
     data1 !! "duration"%string = Some (JNum x1) ->
     data2 !! "duration"%string = Some (JNum x2) ->
     let w1 := exec (handle_pump_test clock wall float_of_str data1) w in
     let w2 := exec (handle_pump_test clock wall float_of_str data2) w in
     blank_durations (STATE w1) = blank_durations (STATE w2) /\
     config_file w1 = config_file w2 /\
     pump_pwm w1 = pump_pwm w2 /\ pump_dir w1 = pump_dir w2) /\
  (forall d : Q,
     let w1 := exec (activate_pump_on_detect clock wall) w in
     let w2 := exec (activate_pump_on_detect clock wall)
                    (with_STATE (set_pump_detection_duration d) w) in
     current_water_level_ml (STATE w1) = current_water_level_ml (STATE w2) /\
     map log_amount (water_log (STATE w1)) = map log_amount (water_log (STATE w2))).
Proof.
  intros [p Hp] s Hwater. subst s.
  split; [| split; [| split]].
  - intros data x Hd w'. subst w'. unfold_program. rewrite Hd.
    split_cases; try absurd_cmp. split; [reflexivity |].
    apply last_slice_last_snoc.
  - intros Hcool Hoff Hpos w'. subst w'. unfold_program.
    split_cases; try absurd_cmp.
    all: split; [reflexivity | apply last_slice_last_snoc].
  - intros data1 data2 x1 x2 Hd1 Hd2 w1 w2. subst w1 w2.
    unfold_program. rewrite Hd1, Hd2.
    split_cases; try absurd_cmp.
    unfold blank_durations. cbn -[slice_last].
    rewrite <- !slice_last_map, !map_app. auto.
  - intros d w1 w2. subst w1 w2. unfold_program.
    split_cases; try absurd_cmp; split; try reflexivity.
    all: rewrite <- !slice_last_map, !map_app; reflexivity.
Qed.

End Water.

(** ** The statements at work on concrete worlds *)

Lemma running_world_has_pause_attr : has_pause_attr running_world.
Proof. exists 1.0. reflexivity. Defined.

Lemma later_world_has_pause_attr : has_pause_attr later_world.
Proof. exists 1.0. reflexivity. Defined.

(** A dose of 10 ml leaves 190 of 200 ml. *)
Lemma log_water_usage_all_or_nothing_witness :
  has_pause_attr running_world /\
  result (log_water_usage wall0 3 "Test") running_world = Ret true /\
  current_water_level_ml
    (STATE (exec (log_water_usage wall0 3 "Test") running_world)) = 200.0 - 10.0.
Proof.
  split; [exact running_world_has_pause_attr |].
  destruct (log_water_usage_all_or_nothing wall0 3 "Test" running_world)
    as [Hok _].
  apply Hok.
  - exact running_world_has_pause_attr.
  - vm_compute. discriminate.
Defined.

(** At [t = 5], four seconds past the cooldown, the detection fires. *)
Lemma cooldown_gate_inclusive_witness :
  pump_dir (exec (activate_pump_on_detect clock0 wall0) later_world) = true /\
  last_detection_time
    (STATE (exec (activate_pump_on_detect clock0 wall0) later_world)) = clock0 9.
Proof.
  destruct (cooldown_gate_inclusive clock0 wall0 later_world) as [_ Hfire].
  destruct Hfire as (_ & Hdir & _ & _ & _ & Hlast).
  - vm_compute. discriminate.
  - exact later_world_has_pause_attr.
  - vm_compute. reflexivity.
  - vm_compute. reflexivity.
  - vm_compute. discriminate.
  - split; [exact Hdir | exact Hlast].
Defined.

(** Pauses at [t = 5] and [t = 6], 2 s each, end at [t = 8]. *)
Lemma pause_extends_never_shortens_witness :
  motor_paused_until
    (STATE (exec (pause_motor_for clock0 2.0)
                 (exec (pause_motor_for clock0 2.0) later_world))) == clock0 5 + 3.0.
Proof.
  destruct (pause_extends_never_shortens clock0 2.0 later_world)
    as (_ & _ & _ & Htwice).
  apply Htwice.
  - vm_compute. reflexivity.
  - vm_compute. discriminate.
Defined.

(** Paused until [t = 3] and checked at [t = 5] with the speed still zero:
    the 0.2 put aside comes back.  After a manual speed of 0.5 the check
    leaves the 0.5 in place. *)
Lemma resume_only_if_untouched_witness :
  motor_paused_prev_speed (STATE paused_world) = Some 0.2 /\
  motor_speed (STATE (exec (check_and_resume_motor clock0) paused_world)) = 0.2 /\
  motor_speed
    (STATE (exec (check_and_resume_motor clock0)
                 (exec (set_motor_speed float0 (JNum 0.5)) paused_world))) = 0.5.
Proof.
  assert (Hprev : motor_paused_prev_speed (STATE paused_world) = Some 0.2)
    by reflexivity.
  split; [exact Hprev |].
  destruct (resume_only_if_untouched clock0 float0 0.2 paused_world Hprev)
    as (_ & Hpast & Hmanual).
  split.
  - destruct Hpast as (_ & _ & Hzero & _).
    + vm_compute. reflexivity.
    + destruct Hzero as [Hspeed _].
      * vm_compute. reflexivity.
      * exact Hspeed.
  - destruct (Hmanual (JNum 0.5)) as (_ & _ & Hsame).
    + reflexivity.
    + rewrite Hsame. reflexivity.
Defined.


(** With the pump timed to stop at [t = 100], a detection at [t = 6] changes
    nothing and a 3 s test spray moves the stop time to [t = 9]. *)
Lemma test_spray_overrides_active_spray_witness :
  STATE (exec (activate_pump_on_detect clock0 wall0) spraying_world) =
    STATE spraying_world /\
  pump_off_time
    (STATE (exec (handle_pump_test clock0 wall0 float0 three_seconds) spraying_world))
    = 6 + 3.
Proof.
  destruct (test_spray_overrides_active_spray clock0 wall0 float0 spraying_world)
    as [Hauto Htest].
  split.
  - apply Hauto. vm_compute. discriminate.
  - destruct (Htest three_seconds 3) as (_ & Hstate & _).
    + reflexivity.
    + exists 1.0. reflexivity.
    + vm_compute. discriminate.
    + rewrite Hstate. reflexivity.
Defined.

Lemma DEFAULT_CONFIG_in_range : stored_in_range DEFAULT_CONFIG.
Proof.
  unfold stored_in_range. vm_compute.
  repeat split; solve [ reflexivity | discriminate ].
Defined.

(** Started on the default record, the fields are in range and stay so over
    a cooldown request of 100 s and a detection. *)
Lemma ranges_kept_by_calls_copied_by_load_witness :
  config_in_range (STATE (exec startup (starting_world (Json DEFAULT_CONFIG)))) /\
  config_in_range
    (STATE (run clock0 wall0 float0
              [SetCooldown {[ "cooldown"%string := JNum 100 ]}; Detection]
              (exec startup (starting_world (Json DEFAULT_CONFIG))))).
Proof.
  destruct (ranges_kept_by_calls_copied_by_load clock0 wall0 float0)
    as (_ & _ & Hstart).
  destruct (Hstart DEFAULT_CONFIG (starting_world (Json DEFAULT_CONFIG))
              [SetCooldown {[ "cooldown"%string := JNum 100 ]}; Detection])
    as (_ & Hrange & Hrun).
  - reflexivity.
  - exact DEFAULT_CONFIG_in_range.
  - reflexivity.
  - split; [exact Hrange | exact Hrun].
Defined.

(** The stored record with its cooldown edited to 100 s starts the robot
    without complaint and with a cooldown of 100 s. *)
Lemma startup_keeps_stored_cooldown_of_100 :
  result startup (starting_world (Json edited_config)) = Ret tt /\
  ~ config_in_range (STATE (exec startup (starting_world (Json edited_config)))).
Proof.
  split; [reflexivity |].
  intros [_ _ [_ Hcool] _ _ _].
  assert (Heq : detection_cooldown_s
                  (STATE (exec startup (starting_world (Json edited_config)))) = 100)
    by reflexivity.
  rewrite Heq in Hcool. revert Hcool. vm_compute. intros H. apply H. reflexivity.
Qed.



(** The capacity request of 50 ml on a tank holding 200 ml. *)
Lemma capacity_50_leaves_level_100_witness :
  current_water_level_ml
    (STATE (exec (set_water_config float0 shrink_body) running_world)) == 100.
Proof.
  destruct (capacity_50_leaves_level_100 float0 shrink_body running_world)
    as [Hlevel _].
  - reflexivity.
  - reflexivity.
  - reflexivity.
  - exact Hlevel.
Defined.

Lemma capacity_50_does_not_leave_level_50 :
  current_water_level_ml (STATE running_world) == 200 /\
  ~ current_water_level_ml
      (STATE (exec (set_water_config float0 shrink_body) running_world)) == 50.
Proof.
  split; [reflexivity |]. vm_compute. discriminate.
Qed.

(** A 3 s test spray and a 0.2 s automatic spray both leave 190 ml. *)
Lemma spray_volume_ignores_duration_witness :
  current_water_level_ml
    (STATE (exec (handle_pump_test clock0 wall0 float0 three_seconds) later_world))
    = 200.0 - 10.0 /\
  current_water_level_ml
    (STATE (exec (activate_pump_on_detect clock0 wall0) later_world))
    = 200.0 - 10.0.
Proof.
  destruct (spray_volume_ignores_duration clock0 wall0 float0 later_world
              later_world_has_pause_attr) as (Htest & Hauto & _).
  - vm_compute. discriminate.
  - split.
    + destruct (Htest three_seconds 3) as [Hlevel _]; [reflexivity |].
      exact Hlevel.
    + destruct Hauto as [Hlevel _].
      * vm_compute. discriminate.
      * vm_compute. reflexivity.
      * vm_compute. reflexivity.
      * exact Hlevel.
Defined.

(** On a first run there is no file, and [load_config] does not come back:
    [save_config] reads an attribute that [__init__] never creates, once in
    the [try] and again in the handler. *)
Example load_config_without_file_raises :
  result load_config (starting_world Missing) = Raise AttributeError.
Proof. reflexivity. Qed.

(** [/set_water_config] with a good dose and an unreadable capacity answers
    400 after the dose has been changed; nothing is saved. *)
Example set_water_config_partial_update :
  let data : gmap string json :=
    {[ "water_per_spray_ml"%string := JNum 5;
       "water_tank_capacity_ml"%string := JStr "abc" ]} in
  result (set_water_config float0 data) running_world = Ret (error 400) /\
  water_per_spray_ml (STATE (exec (set_water_config float0 data) running_world)) = 5 /\
  config_file (exec (set_water_config float0 data) running_world) =
    config_file running_world.
Proof. repeat split. Qed.

(** The end-to-end scenario: a detection fires, the stop check switches the
    pump off, a detection half a second after the first is refused, one a
    second later fires again. *)
Example end_to_end_scenario :
  let go cs := run scenario_clock wall0 float0 cs running_world in
  let w1 := go [Detection] in
  let w2 := go [Detection; StopCheck] in
  let w3 := go [Detection; StopCheck; Detection] in
  let w4 := go [Detection; StopCheck; Detection; Detection] in
  (current_water_level_ml (STATE w1) == 190 /\
   length (water_log (STATE w1)) = 1%nat /\
   pump_dir w1 = true /\
   pump_off_time (STATE w1) == 1000.2 /\
   motor_paused_until (STATE w1) == 1001) /\
  (pump_dir w2 = false /\ pump_pwm w2 == 0 /\ pump_off_time (STATE w2) == 0) /\
  STATE w3 = STATE w2 /\
  (current_water_level_ml (STATE w4) == 180 /\
   length (water_log (STATE w4)) = 2%nat).
Proof. vm_compute. repeat split. Qed.

(** ** Further properties of the script *)

(** *** The configuration file *)

Lemma config_dict_lookups (s : WeedBotState) (pause : Q) :
  config_dict s pause !! "motor_speed"%string = Some (motor_speed s) /\
  config_dict s pause !! "pump_detection_duration"%string
    = Some (pump_detection_duration s) /\
  config_dict s pause !! "water_per_spray_ml"%string = Some (water_per_spray_ml s) /\
  config_dict s pause !! "water_tank_capacity_ml"%string
    = Some (water_tank_capacity_ml s) /\
  config_dict s pause !! "current_water_level_ml"%string
    = Some (current_water_level_ml s) /\
  config_dict s pause !! "detection_cooldown_s"%string
    = Some (detection_cooldown_s s) /\
  config_dict s pause !! "motor_pause_on_detection_s"%string = Some pause.
Proof. repeat split; vm_compute; reflexivity. Qed.

Lemma config_get_Some (config : gmap string Q) (key dkey : string) (x : Q) :
  config !! key = Some x -> config_get config key dkey = x.
Proof. intros H. unfold config_get. rewrite H. reflexivity. Qed.

(** X1.  What [save_config] writes, [load_config] reads back, in whatever
    process the file is loaded: the save returns and leaves the state object
    alone, and a load of the file it wrote returns with the seven persisted
    fields equal to those of the state that was saved, the five others being
    those of the loading process.  In particular, saving and loading again in
    one process leaves the state object exactly as it was. *)
Theorem save_then_load_restores (w v : World) :
  has_pause_attr w ->
  config_file v = config_file (exec save_config w) ->
  let s := STATE w in
  let s' := STATE (exec load_config v) in
  (result save_config w = Ret tt /\ STATE (exec save_config w) = s) /\
  result load_config v = Ret tt /\
  (motor_speed s' = motor_speed s /\
   pump_detection_duration s' = pump_detection_duration s /\
   water_per_spray_ml s' = water_per_spray_ml s /\
   water_tank_capacity_ml s' = water_tank_capacity_ml s /\
   current_water_level_ml s' = current_water_level_ml s /\
   detection_cooldown_s s' = detection_cooldown_s s /\
   motor_pause_on_detection_s s' = motor_pause_on_detection_s s) /\
  (pump_off_time s' = pump_off_time (STATE v) /\
   water_log s' = water_log (STATE v) /\
   last_detection_time s' = last_detection_time (STATE v) /\
   motor_paused_until s' = motor_paused_until (STATE v) /\
   motor_paused_prev_speed s' = motor_paused_prev_speed (STATE v)) /\
  STATE (exec (save_config ;; load_config) w) = s.
Proof.
  intros [p Hp] Hfile s s'. subst s s'.
  destruct (config_dict_lookups (STATE w) p) as (H1 & H2 & H3 & H4 & H5 & H6 & H7).
  assert (Hsave : save_config w = (Ret tt, with_config_file (Json (config_dict (STATE w) p)) w)).
  { unfold save_config, bind, read, write. cbn -[config_dict]. rewrite Hp. reflexivity. }
  unfold exec, result in *. rewrite Hsave in Hfile. cbn -[config_dict] in Hfile.
  rewrite (load_config_Json _ v Hfile).
  unfold bind. rewrite Hsave.
  rewrite (load_config_Json (config_dict (STATE w) p)) by reflexivity.
  cbn -[config_dict config_get].
  rewrite (config_get_Some _ _ _ _ H1), (config_get_Some _ _ _ _ H2),
    (config_get_Some _ _ _ _ H3), (config_get_Some _ _ _ _ H4),
    (config_get_Some _ _ _ _ H5), (config_get_Some _ _ _ _ H6),
    (config_get_Some _ _ _ _ H7).
  repeat apply conj; try reflexivity.
  - symmetry. exact Hp.
  - destruct (STATE w); cbn in *. subst. reflexivity.
Qed.

(** X2.  A process that finds no file, or one it cannot read, does not get
    past [load_config]: the fresh state object has no
    [motor_pause_on_detection_s], [save_config] raises [AttributeError] in the
    [try] and again in the handler, nothing is written and start-up ends
    there.  With a record on disk [load_config] returns and the attribute
    exists from then on. *)
Theorem load_config_needs_a_record (w : World) :
  (motor_pause_on_detection_s (STATE w) = None ->
   config_file w = Missing \/ config_file w = Unreadable ->
   result load_config w = Raise AttributeError /\
   config_file (exec load_config w) = config_file w /\
   result startup w = Raise AttributeError /\
   config_file (exec startup w) = config_file w) /\
  (forall config : gmap string Q,
   config_file w = Json config ->
   result load_config w = Ret tt /\
   has_pause_attr (exec load_config w)).
Proof.
  split.
  - intros Hnone Hfile.
    unfold startup, load_config, save_config.
    unfold exec, result, bind, try_except, read, write, ret, raise.
    destruct Hfile as [Hf | Hf]; rewrite Hf; cbn; rewrite Hnone; cbn;
      rewrite ?Hnone; cbn; rewrite ?Hf; auto.
  - intros config Hf. unfold exec, result.
    rewrite (load_config_Json config w Hf). cbn. split; [reflexivity |].
    unfold has_pause_attr. cbn. eauto.
Qed.

(** X3.  A start-up that completes leaves the motor at rest whatever speed
    was stored: [motor_speed] and the motor output are [0.0], the pump is off,
    and the file written holds a [motor_speed] of [0.0]. *)
Theorem startup_forces_motor_to_rest (w : World) :
  result startup w = Ret tt ->
  let w' := exec startup w in
  motor_speed (STATE w') = 0.0 /\
  motor_pwm w' = 0.0 /\
  pump_pwm w' = 0.0 /\
  pump_dir w' = false /\
  exists config : gmap string Q,
    config_file w' = Json config /\
    config !! "motor_speed"%string = Some 0.0.
Proof.
  unfold startup, load_config, save_config.
  unfold exec, result, bind, try_except, read, write, ret, raise.
  split_cases; intros H; try discriminate H.
  all: repeat split; try reflexivity.
  all: eexists; split; [reflexivity | apply config_dict_lookups].
Qed.

(** *** Outputs and timers *)

Ltac clock_positive Hclock :=
  repeat match goal with
    | |- context [?clock ?n] =>
        lazymatch type of Hclock with
        | forall n, 0 < clock n =>
            lazymatch goal with
            | _ : 0 < clock n |- _ => fail
            | _ => pose proof (Hclock n)
            end
        end
    end.

Section Outputs.

Variable clock : nat -> Q.
Variable wall : nat -> string.
Variable float_of_str : string -> option Q.
Hypothesis clock_after_epoch : forall n, 0 < clock n.

Lemma call_keeps_pump_consistent (c : Call) (w : World) :
  0 < pump_detection_duration (STATE w) ->
  pump_consistent w ->
  pump_consistent (exec (call clock wall float_of_str c) w).
Proof.
  intros Hdur H. unfold pump_consistent in *.
  destruct c; unfold_program; split_cases; try assumption.
  all: clock_positive clock_after_epoch.
  all: destruct H as [(Hd & Hp & Ho) | (Hd & Hp & Ho)];
    reflect_cmp; case_minmax;
    first [ left; repeat split; solve [ assumption | reflexivity | lra ]
          | right; repeat split; solve [ assumption | reflexivity ]
          | exfalso; rewrite ?Ho in *; solve [ lra | tauto | congruence ] ].
Qed.

Lemma call_keeps_motor_consistent (c : Call) (w : World) :
  motor_consistent w ->
  motor_consistent (exec (call clock wall float_of_str c) w).
Proof.
  intros H. unfold motor_consistent in *.
  destruct c; unfold_program; split_cases; try assumption.
  all: destruct H as (Hpwm & Hnone & Hsome);
    repeat split; cbn; intros; simplify_eq;
    solve [ reflexivity | assumption | eauto | congruence ].
Qed.

Lemma call_keeps_duration_positive (c : Call) (w : World) :
  0 < pump_detection_duration (STATE w) ->
  0 < pump_detection_duration (STATE (exec (call clock wall float_of_str c) w)).
Proof.
  intros H. destruct c; unfold_program; split_cases; try assumption.
  all: match goal with
       | |- context [Py.max 0.1 ?x] => pose proof (max_lower 0.1 x); lra
       end.
Qed.

Lemma call_keeps_speed_in_range (c : Call) (w : World) :
  0 <= motor_speed (STATE w) <= 1 /\ saved_speed_in_range (STATE w) ->
  let w' := exec (call clock wall float_of_str c) w in
  0 <= motor_speed (STATE w') <= 1 /\ saved_speed_in_range (STATE w').
Proof.
  intros [Hs Hp] w'. subst w'. unfold saved_speed_in_range in *.
  destruct c; unfold_program; split_cases; try (split; assumption).
  all: repeat match goal with
    | H : forall v, ?p = Some v -> _, E : ?p = Some ?x |- _ =>
        pose proof (H x E); clear H
    end.
  all: split; intros; simplify_eq; reflect_cmp; case_minmax;
    first [ lra | solve [eauto] ].
Qed.

Lemma startup_consistent (w : World) :
  result startup w = Ret tt ->
  (pump_off_time (STATE w) = 0.0 -> pump_consistent (exec startup w)) /\
  (motor_paused_prev_speed (STATE w) = None ->
   motor_paused_until (STATE w) = 0.0 ->
   motor_consistent (exec startup w)).
Proof.
  unfold pump_consistent, motor_consistent.
  unfold startup, load_config, save_config.
  unfold exec, result, bind, try_except, read, write, ret, raise.
  split_cases; intros H; try discriminate H.
  all: split; [ intros Ho; right; auto
              | intros Hn Hu; repeat split; auto; rewrite Hn; discriminate ].
Qed.

(** X4.  Test sprays apart, the pump output and the stop timer agree from a
    completed start-up on: whatever the main loop does and whatever requests
    other than [/test_pump] arrive, the pump runs at its duty cycle exactly
    while [pump_off_time] holds a time, and is off with the timer at [0.0]
    otherwise.  [/test_pump] is left out because it writes the two outputs
    and the timer while [check_and_stop_pump], which takes no lock, may be
    half-way through writing them; no other handler writes any of the three.
    (Clock readings are positive, and so is the detection duration, which the
    calls keep positive.) *)
Theorem pump_output_follows_timer :
  (forall w : World,
     result startup w = Ret tt ->
     pump_off_time (STATE w) = 0.0 ->
     pump_consistent (exec startup w)) /\
  (forall (cs : list Call) (w : World),
     forallb (fun c => negb (is_test_pump c)) cs = true ->
     0 < pump_detection_duration (STATE w) ->
     pump_consistent w ->
     let w' := run clock wall float_of_str cs w in
     pump_consistent w' /\ 0 < pump_detection_duration (STATE w')).
Proof.
  split.
  - intros w Hres. apply (startup_consistent w Hres).
  - intros cs w _. revert w.
    induction cs as [| c cs IH]; intros w Hd Hp; cbn.
    + split; assumption.
    + apply IH.
      * apply call_keeps_duration_positive, Hd.
      * apply call_keeps_pump_consistent; assumption.
Qed.

(** X5.  With output and timer in agreement, the first stop check whose
    clock reading is past [pump_off_time] finds the pump off or switches it
    off and clears the timer; a check at or before that time changes nothing
    but the count of clock reads. *)
Theorem stop_check_ends_spray_at_deadline (w : World) :
  pump_consistent w ->
  let now := clock (clock_reads w) in
  let w' := exec (check_and_stop_pump clock) w in
  (pump_off_time (STATE w) < now ->
     pump_dir w' = false /\ pump_pwm w' = 0.0 /\
     pump_off_time (STATE w') = 0.0 /\
     current_water_level_ml (STATE w') = current_water_level_ml (STATE w) /\
     water_log (STATE w') = water_log (STATE w)) /\
  (now <= pump_off_time (STATE w) ->
     w' = with_clock_reads (1 + clock_reads w) w).
Proof.
  intros H now w'. subst now w'. unfold pump_consistent in H.
  split; intros Hcmp; unfold_program; split_cases; try absurd_cmp; auto.
  all: destruct H as [(Hd & Hp & Ho) | (Hd & Hp & Ho)]; reflect_cmp;
    first [ repeat split; solve [ assumption | reflexivity ]
          | exfalso; rewrite ?Ho in *;
            solve [ lra | tauto | congruence
                  | match goal with H : ~ _ == _ |- _ => apply H; reflexivity end
                  | match goal with H : _ \/ _ |- _ => destruct H; lra end ] ].
Qed.

(** X6.  From a completed start-up on, whatever calls are made, the duty
    cycle on the motor output is the desired [motor_speed]; a recorded pause
    (a saved speed) means the desired speed is [0.0], and no recorded pause
    means no deadline is pending. *)
Theorem motor_output_follows_speed :
  (forall w : World,
     result startup w = Ret tt ->
     motor_paused_prev_speed (STATE w) = None ->
     motor_paused_until (STATE w) = 0.0 ->
     motor_consistent (exec startup w)) /\
  (forall (cs : list Call) (w : World),
     motor_consistent w ->
     motor_consistent (run clock wall float_of_str cs w)).
Proof.
  split.
  - intros w Hres. apply (startup_consistent w Hres).
  - intros cs. induction cs as [| c cs IH]; intros w H; cbn.
    + exact H.
    + apply IH, call_keeps_motor_consistent, H.
Qed.

End Outputs.

(** *** Pauses and detections *)

Section Motion.

Variable clock : nat -> Q.
Variable wall : nat -> string.

(** X7.  A pause followed, once its deadline has passed, by the resume check
    puts the state object and the motor output back exactly as they were
    before the pause; a second pause issued during the first does not replace
    the speed put aside, so the same holds after two pauses. *)
Theorem pause_then_resume_restores (d1 d2 : Q) (w : World) :
  motor_consistent w ->
  motor_paused_prev_speed (STATE w) = None ->
  let r := clock_reads w in
  let w1 := exec (pause_motor_for clock d1) w in
  let w2 := exec (pause_motor_for clock d2) w1 in
  (motor_paused_until (STATE w1) < clock (1 + r) ->
     STATE (exec (check_and_resume_motor clock) w1) = STATE w /\
     motor_pwm (exec (check_and_resume_motor clock) w1) = motor_pwm w) /\
  (motor_paused_until (STATE w2) < clock (2 + r) ->
     STATE (exec (check_and_resume_motor clock) w2) = STATE w /\
     motor_pwm (exec (check_and_resume_motor clock) w2) = motor_pwm w).
Proof.
  intros (Hpwm & Hnone & _) Hprev r w1 w2. subst r w1 w2.
  specialize (Hnone Hprev).
  split; unfold_program; cbn; rewrite Hprev; cbn;
    intros Hlate; split_cases; try absurd_cmp.
  all: rewrite Hpwm; split; [| reflexivity].
  all: destruct (STATE w); cbn in *; subst; reflexivity.
Qed.

(** X8.  A detection either leaves state object and pump as they are, or
    fires; when it fires, the new [last_detection_time] lies at least one
    cooldown after the previous one (the clock never running backwards), the
    level is one dose lower and the pump is on. *)
Theorem auto_sprays_are_a_cooldown_apart (w : World) :
  (forall n m : nat, (n <= m)%nat -> clock n <= clock m) ->
  has_pause_attr w ->
  let s := STATE w in
  let w' := exec (activate_pump_on_detect clock wall) w in
  (STATE w' = s /\ pump_dir w' = pump_dir w /\ pump_pwm w' = pump_pwm w) \/
  (last_detection_time s + detection_cooldown_s s <= last_detection_time (STATE w') /\
   current_water_level_ml (STATE w') =
     current_water_level_ml s - water_per_spray_ml s /\
   pump_dir w' = true /\ pump_pwm w' = SPEED_PUMP_DUTY_CYCLE).
Proof.
  intros Hmono [p Hp] s w'. subst s w'.
  pose proof (Hmono (clock_reads w) (4 + clock_reads w)%nat) as Hlater.
  unfold_program. split_cases; try (exfalso; congruence).
  all: first [ left; repeat split; reflexivity
             | right; reflect_cmp; repeat split; try reflexivity;
               cbn in Hlater; assert (clock_reads w <= S (S (S (S (clock_reads w)))))%nat by lia;
               specialize (Hlater ltac:(assumption)); lra ].
Qed.

(** X9.  A detection that fires stops the motor and puts its speed aside;
    the first resume check after the pause deadline gives the motor that
    speed back. *)
Theorem detection_pauses_then_motor_resumes (w : World) (pause : Q) :
  motor_pause_on_detection_s (STATE w) = Some pause ->
  motor_paused_prev_speed (STATE w) = None ->
  let s := STATE w in
  let r := clock_reads w in
  last_detection_time s + detection_cooldown_s s <= clock r ->
  pump_off_time s < clock (1 + r) ->
  0 < current_water_level_ml s ->
  water_per_spray_ml s <= current_water_level_ml s ->
  let w' := exec (activate_pump_on_detect clock wall) w in
  motor_speed (STATE w') = 0.0 /\
  motor_pwm w' = 0.0 /\
  motor_paused_prev_speed (STATE w') = Some (motor_speed s) /\
  motor_paused_until (STATE w') =
    Py.max (motor_paused_until s) (clock (5 + r) + pause) /\
  (motor_paused_until (STATE w') < clock (6 + r) ->
     let w'' := exec (check_and_resume_motor clock) w' in
     motor_speed (STATE w'') = motor_speed s /\
     motor_pwm w'' = motor_speed s /\
     motor_paused_prev_speed (STATE w'') = None).
Proof.
  intros Hp Hprev s r Hcool Hoff Hpos Hwater w'. subst s r w'.
  unfold_program. split_cases; try absurd_cmp.
  all: simplify_eq;
    repeat match goal with
      | E : motor_pause_on_detection_s _ = Some _ |- _ => rewrite E in *; clear E
      end; cbn [default] in *;
    repeat apply conj; try reflexivity.
  all: intros Hlate; try absurd_cmp; repeat apply conj; reflexivity.
Qed.

End Motion.

(** *** Doses *)

Section Doses.

Variable clock : nat -> Q.
Variable wall : nat -> string.
Variable float_of_str : string -> option Q.

Lemma spray_attempt_on_dry_tank (c : Call) (w : World) :
  is_spray_attempt c = true ->
  current_water_level_ml (STATE w) < water_per_spray_ml (STATE w) ->
  let w' := exec (call clock wall float_of_str c) w in
  STATE w' = STATE w /\ pump_dir w' = pump_dir w /\ pump_pwm w' = pump_pwm w /\
  motor_pwm w' = motor_pwm w /\ config_file w' = config_file w.
Proof.
  intros Hc Hdry. destruct c; try discriminate Hc.
  all: unfold_program; split_cases; try absurd_cmp; auto.
Qed.

(** X11.  While the tank holds less than one dose, no number of test-pump
    requests and detections switches the pump on, takes water, writes a log
    entry or touches the file: state object, outputs and file stay as they
    are. *)
Theorem dry_tank_refuses_every_spray (cs : list Call) (w : World) :
  forallb is_spray_attempt cs = true ->
  current_water_level_ml (STATE w) < water_per_spray_ml (STATE w) ->
  let w' := run clock wall float_of_str cs w in
  STATE w' = STATE w /\ pump_dir w' = pump_dir w /\ pump_pwm w' = pump_pwm w /\
  motor_pwm w' = motor_pwm w /\ config_file w' = config_file w.
Proof.
  revert w. induction cs as [| c cs IH]; intros w Hcs Hdry; cbn in *.
  - auto.
  - apply andb_true_iff in Hcs. destruct Hcs as [Hc Hcs].
    destruct (spray_attempt_on_dry_tank c w Hc Hdry) as (Hs & Hd & Hp & Hm & Hf).
    destruct (IH (exec (call clock wall float_of_str c) w) Hcs)
      as (Hs' & Hd' & Hp' & Hm' & Hf').
    + rewrite Hs. exact Hdry.
    + rewrite Hs', Hd', Hp', Hm', Hf'. auto.
Qed.

(** X12.  The two motor buttons cannot answer 500: [set_motor_speed] fails
    only when [float()] does, and their speeds are numbers.  In a running
    process each sets the speed and the output to its value (0.2 and 0.0)
    and clears a recorded pause. *)
Theorem motor_buttons_always_succeed (w : World) :
  result (handle_motor_start float_of_str) w <> Ret (error 500) /\
  result (handle_motor_stop float_of_str) w <> Ret (error 500) /\
  (has_pause_attr w ->
   let w1 := exec (handle_motor_start float_of_str) w in
   let w0 := exec (handle_motor_stop float_of_str) w in
   result (handle_motor_start float_of_str) w =
     Ret (success [("new_speed"%string, 0.2)]) /\
   motor_speed (STATE w1) = 0.2 /\ motor_pwm w1 = 0.2 /\
   motor_paused_prev_speed (STATE w1) = None /\
   motor_paused_until (STATE w1) = 0.0 /\
   result (handle_motor_stop float_of_str) w =
     Ret (success [("new_speed"%string, 0.0)]) /\
   motor_speed (STATE w0) = 0.0 /\ motor_pwm w0 = 0.0 /\
   motor_paused_prev_speed (STATE w0) = None /\
   motor_paused_until (STATE w0) = 0.0).
Proof.
  split; [| split].
  - unfold_program. split_cases; discriminate.
  - unfold_program. split_cases; discriminate.
  - intros [p Hp]. unfold_program. cbn. rewrite Hp. cbn. repeat split.
Qed.

End Doses.

(** *** Persistence *)

Lemma config_dict_up_to_date (s : WeedBotState) (pause : Q) (w : World) :
  config_file w = Json (config_dict s pause) ->
  pump_detection_duration (STATE w) = pump_detection_duration s ->
  water_per_spray_ml (STATE w) = water_per_spray_ml s ->
  water_tank_capacity_ml (STATE w) = water_tank_capacity_ml s ->
  current_water_level_ml (STATE w) = current_water_level_ml s ->
  detection_cooldown_s (STATE w) = detection_cooldown_s s ->
  motor_pause_on_detection_s (STATE w) = Some pause ->
  file_up_to_date w.
Proof.
  intros Hf H1 H2 H3 H4 H5 H6.
  destruct (config_dict_lookups s pause) as (_ & L1 & L2 & L3 & L4 & L5 & L6).
  exists (config_dict s pause).
  rewrite H1, H2, H3, H4, H5, H6. auto 10.
Qed.

Section Persistence.

Variable clock : nat -> Q.
Variable wall : nat -> string.
Variable float_of_str : string -> option Q.

Lemma call_keeps_file_up_to_date (c : Call) (w : World) :
  is_water_config c = false ->
  has_pause_attr w ->
  file_up_to_date w ->
  file_up_to_date (exec (call clock wall float_of_str c) w).
Proof.
  intros Hc [p Hp] Hfile. destruct c; try discriminate Hc.
  all: unfold_program; split_cases; try (exfalso; congruence).
  all: first
    [ eapply config_dict_up_to_date; cbn; solve [ reflexivity | eassumption ]
    | destruct Hfile as (cfg & Hf & H1 & H2 & H3 & H4 & H5 & H6);
      exists cfg; cbn; auto 10 ].
Qed.

(** X13.  The file follows the state: start-up leaves on disk the value of
    every persisted field but [motor_speed], and so does every call after it,
    a [/set_water_config] included when it answers success. *)
Theorem file_follows_state :
  (forall w : World,
     result startup w = Ret tt -> file_up_to_date (exec startup w)) /\
  (forall (c : Call) (w : World),
     has_pause_attr w ->
     file_up_to_date w ->
     (forall data, c = SetWaterConfig data ->
        exists fs, result (set_water_config float_of_str data) w = Ret (success fs)) ->
     file_up_to_date (exec (call clock wall float_of_str c) w)).
Proof.
  split.
  - intros w. unfold startup, load_config, save_config.
    unfold exec, result, bind, try_except, read, write, ret, raise.
    split_cases; intros H; try discriminate H.
    all: eapply config_dict_up_to_date; cbn; solve [ reflexivity | eassumption ].
  - intros c w Hattr Hfile Hwater.
    destruct (is_water_config c) eqn:Hc.
    + destruct c; try discriminate Hc.
      destruct (Hwater data eq_refl) as [fs Hres]. clear Hwater.
      destruct Hattr as [p Hp]. revert Hres.
      unfold_program. split_cases; intros Hres; try discriminate Hres;
        try (exfalso; congruence).
      all: eapply config_dict_up_to_date; cbn; solve [ reflexivity | eassumption ].
    + apply call_keeps_file_up_to_date; assumption.
Qed.

(** X14.  A restart on an up-to-date file brings back what [/get_status]
    showed before it, with two exceptions: the motor speed is [0.0] and the
    log, which is never written to the file, is empty. *)
Theorem restart_recovers_status (w : World) :
  file_up_to_date w ->
  let restarted := exec startup (starting_world (config_file w)) in
  result startup (starting_world (config_file w)) = Ret tt /\
  forall before : Status,
    result get_status w = Ret before ->
    result get_status restarted =
      Ret {| status_motor_speed := 0.0;
             status_pump_detection_duration := status_pump_detection_duration before;
             status_water_per_spray_ml := status_water_per_spray_ml before;
             status_water_tank_capacity_ml := status_water_tank_capacity_ml before;
             status_current_water_level_ml := status_current_water_level_ml before;
             status_detection_cooldown_s := status_detection_cooldown_s before;
             status_water_log := [] |}.
Proof.
  intros (cfg & Hf & H1 & H2 & H3 & H4 & H5 & H6) restarted.
  subst restarted. rewrite Hf.
  unfold exec, result, startup, bind.
  rewrite (load_config_Json cfg (starting_world (Json cfg))) by reflexivity.
  unfold get_status, save_config, bind, read, write, ret.
  cbn -[config_get].
  split; [reflexivity |].
  intros before Hbefore. injection Hbefore as <-. cbn -[config_get].
  rewrite (config_get_Some _ _ _ _ H1), (config_get_Some _ _ _ _ H2),
    (config_get_Some _ _ _ _ H3), (config_get_Some _ _ _ _ H4),
    (config_get_Some _ _ _ _ H5).
  reflexivity.
Qed.

End Persistence.

(** *** The main loop *)

Section Loop.

Variable clock : nat -> Q.
Variable wall : nat -> string.
Variable float_of_str : string -> option Q.
Hypothesis clock_after_epoch : forall n, 0 < clock n.

(** A cycle is its clock read followed by the calls it makes. *)
Lemma control_cycle_as_calls (detection_found : bool) (w : World) :
  has_pause_attr w ->
  exec (control_cycle clock wall detection_found) w =
    run clock wall float_of_str
      ((if detection_found then [Detection] else []) ++ [StopCheck; ResumeCheck])
      (with_clock_reads (S (clock_reads w)) w).
Proof.
  intros [p Hp]. unfold control_cycle. destruct detection_found; cbn [app run].
  all: unfold_program; split_cases; try (exfalso; congruence); reflexivity.
Qed.

Lemma run_keeps_all (cs : list Call) (w : World) :
  forallb (fun c => negb (is_water_config c)) cs = true ->
  has_pause_attr w /\
  (0 <= motor_speed (STATE w) <= 1 /\ saved_speed_in_range (STATE w)) /\
  0 < pump_detection_duration (STATE w) /\
  (length (water_log (STATE w)) <= 50)%nat /\
  pump_consistent w /\ motor_consistent w /\ file_up_to_date w ->
  let w' := run clock wall float_of_str cs w in
  has_pause_attr w' /\
  (0 <= motor_speed (STATE w') <= 1 /\ saved_speed_in_range (STATE w')) /\
  0 < pump_detection_duration (STATE w') /\
  (length (water_log (STATE w')) <= 50)%nat /\
  pump_consistent w' /\ motor_consistent w' /\ file_up_to_date w'.
Proof.
  revert w. induction cs as [| c cs IH];
    intros w Hcs (Hattr & Hs & Hd & Hlog & Hpump & Hmotor & Hfile); cbn [run].
  - auto 10.
  - cbn [forallb] in Hcs. apply andb_true_iff in Hcs. destruct Hcs as [Hc Hcs].
    apply negb_true_iff in Hc. apply IH; [exact Hcs |].
    split; [apply call_keeps_pause_attr, Hattr |].
    split; [apply call_keeps_speed_in_range, Hs |].
    split; [apply call_keeps_duration_positive, Hd |].
    split; [apply call_log_bound, Hlog |].
    split; [| split; [apply call_keeps_motor_consistent, Hmotor
                     | apply call_keeps_file_up_to_date; assumption]].
    apply call_keeps_pump_consistent; [exact clock_after_epoch | exact Hd | exact Hpump].
Qed.

(** X15.  Frame after frame, whatever the detector reports, the loop on its
    own keeps the desired and the saved speed within [[0, 1]], the detection
    duration positive, the log within 50 entries, the pump output in step with
    its timer, the motor output equal to the desired speed and the file up to
    date.  Nothing is said of the water fields, which the loop keeps within
    their ranges only as long as dose and level are finite.  (Clock readings
    are positive.) *)
Theorem control_loop_keeps_invariants (detections : list bool) (w : World) :
  let good (v : World) :=
    has_pause_attr v /\
    (0 <= motor_speed (STATE v) <= 1 /\ saved_speed_in_range (STATE v)) /\
    0 < pump_detection_duration (STATE v) /\
    (length (water_log (STATE v)) <= 50)%nat /\
    pump_consistent v /\ motor_consistent v /\ file_up_to_date v in
  good w -> good (control_loop clock wall detections w).
Proof.
  intros good. subst good. cbn beta.
  revert w. induction detections as [| d ds IH]; intros w H; cbn [control_loop].
  - exact H.
  - apply IH. clear IH.
    pose proof H as (Hattr & _).
    rewrite (control_cycle_as_calls d w Hattr).
    apply (run_keeps_all
             ((if d then [Detection] else []) ++ [StopCheck; ResumeCheck])
             (with_clock_reads (S (clock_reads w)) w)).
    + destruct d; reflexivity.
    + exact H.
Qed.

End Loop.

(** *** The data-set scripts *)

(** X16.  The crop box of [process_image] is a square whose side is the
    shorter side of the image; it lies inside the image and is centred, the
    two margins it leaves differing by at most one pixel. *)
Theorem crop_area_is_centred_square (width height : Z) :
  (0 <= width)%Z -> (0 <= height)%Z ->
  let '(x_left, y_top, x_right, y_bottom) := crop_area width height in
  (x_right - x_left = Z.min width height /\
   y_bottom - y_top = Z.min width height /\
   0 <= x_left /\ x_right <= width /\ 0 <= y_top /\ y_bottom <= height /\
   0 <= (width - x_right) - x_left <= 1 /\
   0 <= (height - y_bottom) - y_top <= 1)%Z.
Proof.
  intros Hw Hh. unfold crop_area.
  destruct (Z.gtb_spec width height) as [Hgt | Hle].
  - pose proof (Z.div_mod (width - height) 2 ltac:(lia)) as H1.
    pose proof (Z.mod_pos_bound (width - height) 2 ltac:(lia)) as H2.
    replace (width + height)%Z with ((width - height) + height * 2)%Z by lia.
    rewrite Z.div_add by lia. lia.
  - pose proof (Z.div_mod (height - width) 2 ltac:(lia)) as H1.
    pose proof (Z.mod_pos_bound (height - width) 2 ltac:(lia)) as H2.
    replace (height + width)%Z with ((height - width) + width * 2)%Z by lia.
    rewrite Z.div_add by lia. lia.
Qed.

(** X17.  Whatever the two counts, the three slices taken by
    [add_negative_images] put every image in exactly one split, in the
    shuffled order; when the counts fit, the test split has the size the
    script computes for it. *)
Theorem split_images_is_a_partition {A} (train_count valid_count : nat)
    (all_images : list A) :
  let '(train_images, valid_images, test_images) :=
    split_images train_count valid_count all_images in
  train_images ++ valid_images ++ test_images = all_images /\
  (length train_images + length valid_images + length test_images
     = length all_images)%nat /\
  ((train_count + valid_count <= length all_images)%nat ->
     length train_images = train_count /\
     length valid_images = valid_count /\
     (length test_images = length all_images - train_count - valid_count)%nat).
Proof.
  unfold split_images.
  assert (Hcat : take train_count all_images ++
                 take valid_count (drop train_count all_images) ++
                 drop (train_count + valid_count) all_images = all_images).
  { rewrite <- drop_drop, take_drop. apply take_drop. }
  split; [exact Hcat |]. split.
  - rewrite <- Hcat at 4. rewrite !length_app. lia.
  - intros Hfit. rewrite !length_take, !length_drop. lia.
Qed.

(** ** The further statements at work on concrete worlds *)

Lemma epoch_clock_positive (n : nat) : 0 < epoch_clock n.
Proof.
  unfold epoch_clock.
  assert (H : 0 <= inject_Z (Z.of_nat n)).
  { change 0 with (inject_Z 0). rewrite <- Zle_Qle. lia. }
  lra.
Defined.

Lemma clock0_monotone (n m : nat) : (n <= m)%nat -> clock0 n <= clock0 m.
Proof.
  intros H. unfold clock0. rewrite <- Zle_Qle. lia.
Defined.

Lemma running_STATE_saved_speed : saved_speed_in_range running_STATE.
Proof. intros v H. discriminate H. Defined.

Lemma running_world_pump_consistent : pump_consistent running_world.
Proof. right. repeat split. Defined.

Lemma running_world_motor_consistent : motor_consistent running_world.
Proof.
  split; [reflexivity | split; [reflexivity |]].
  intros v H. discriminate H.
Defined.

Lemma running_world_file_up_to_date : file_up_to_date running_world.
Proof. exists DEFAULT_CONFIG. repeat split. Defined.

(** The record saved by the robot driving at 0.2 gives a fresh process a
    speed of 0.2 and a pause of one second. *)
Lemma save_then_load_restores_witness :
  let v := starting_world (config_file (exec save_config driving_world)) in
  motor_speed (STATE (exec load_config v)) = 0.2 /\
  motor_pause_on_detection_s (STATE (exec load_config v)) = Some 1.0.
Proof.
  intros v.
  destruct (save_then_load_restores driving_world v)
    as (_ & _ & (Hspeed & _ & _ & _ & _ & _ & Hpause) & _).
  - exists 1.0. reflexivity.
  - reflexivity.
  - split; [exact Hspeed | exact Hpause].
Defined.

(** A first run, without a file, ends in [load_config]. *)
Lemma load_config_needs_a_record_witness :
  result startup (starting_world Missing) = Raise AttributeError.
Proof.
  destruct (load_config_needs_a_record (starting_world Missing)) as [Hcrash _].
  destruct Hcrash as (_ & _ & Hstart & _).
  - reflexivity.
  - left. reflexivity.
  - exact Hstart.
Defined.

(** The edited record starts the robot with the motor at rest. *)
Lemma startup_forces_motor_to_rest_witness :
  motor_speed (STATE (exec startup (starting_world (Json edited_config)))) = 0.0 /\
  motor_pwm (exec startup (starting_world (Json edited_config))) = 0.0.
Proof.
  destruct (startup_forces_motor_to_rest (starting_world (Json edited_config)))
    as (Hspeed & Hpwm & _).
  - reflexivity.
  - split; [exact Hspeed | exact Hpwm].
Defined.

(** A detection, a cooldown request and a stop check later the pump and its
    timer agree. *)
Lemma pump_output_follows_timer_witness :
  pump_consistent
    (run epoch_clock wall0 float0
       [Detection; SetCooldown {[ "cooldown"%string := JNum 2 ]}; StopCheck]
       running_world).
Proof.
  destruct (pump_output_follows_timer epoch_clock wall0 float0 epoch_clock_positive)
    as [_ Hrun].
  apply Hrun.
  - reflexivity.
  - reflexivity.
  - exact running_world_pump_consistent.
Defined.

(** Due at [t = 3] and checked at [t = 5], the pump is switched off. *)
Lemma stop_check_ends_spray_at_deadline_witness :
  pump_dir (exec (check_and_stop_pump clock0) pumping_world) = false /\
  pump_off_time (STATE (exec (check_and_stop_pump clock0) pumping_world)) = 0.0.
Proof.
  destruct (stop_check_ends_spray_at_deadline clock0 pumping_world) as [Hpast _].
  - left. repeat split.
  - destruct Hpast as (Hdir & _ & Hoff & _).
    + vm_compute. reflexivity.
    + split; [exact Hdir | exact Hoff].
Defined.

(** Start button, detection, resume check: output and speed still agree. *)
Lemma motor_output_follows_speed_witness :
  motor_consistent
    (run clock0 wall0 float0 [StartMotor; Detection; ResumeCheck] running_world).
Proof.
  destruct (motor_output_follows_speed clock0 wall0 float0) as [_ Hrun].
  apply Hrun. exact running_world_motor_consistent.
Defined.

(** Driving at 0.2, paused at [t = 5] for half a second, checked at [t = 6]:
    the robot drives at 0.2 again. *)
Lemma pause_then_resume_restores_witness :
  STATE (exec (check_and_resume_motor clock0)
              (exec (pause_motor_for clock0 0.5) driving_world))
    = STATE driving_world.
Proof.
  destruct (pause_then_resume_restores clock0 0.5 0.2 driving_world)
    as [Hone _].
  - split; [reflexivity | split; [reflexivity |]].
    intros v H. discriminate H.
  - reflexivity.
  - apply Hone. vm_compute. reflexivity.
Defined.

(** The detection at [t = 5] fires, four seconds past the cooldown. *)
Lemma auto_sprays_are_a_cooldown_apart_witness :
  STATE (exec (activate_pump_on_detect clock0 wall0) later_world) = STATE later_world \/
  last_detection_time (STATE later_world) + detection_cooldown_s (STATE later_world)
    <= last_detection_time
         (STATE (exec (activate_pump_on_detect clock0 wall0) later_world)).
Proof.
  destruct (auto_sprays_are_a_cooldown_apart clock0 wall0 later_world
              clock0_monotone later_world_has_pause_attr)
    as [(Hsame & _) | (Hapart & _)].
  - left. exact Hsame.
  - right. exact Hapart.
Defined.

(** Driving at 0.2, the robot stops for the detection at [t = 5] and drives
    again after the check at [t = 11]. *)
Lemma detection_pauses_then_motor_resumes_witness :
  motor_speed (STATE (exec (activate_pump_on_detect clock0 wall0) driving_world))
    = 0.0 /\
  motor_paused_prev_speed
    (STATE (exec (activate_pump_on_detect clock0 wall0) driving_world)) = Some 0.2.
Proof.
  destruct (detection_pauses_then_motor_resumes clock0 wall0 driving_world 1.0)
    as (Hspeed & _ & Hprev & _).
  - reflexivity.
  - reflexivity.
  - vm_compute. discriminate.
  - vm_compute. reflexivity.
  - vm_compute. reflexivity.
  - vm_compute. discriminate.
  - split; [exact Hspeed | exact Hprev].
Defined.

(** With 5 ml left, a test request and a detection change nothing. *)
Lemma dry_tank_refuses_every_spray_witness :
  STATE (run clock0 wall0 float0 [TestPump three_seconds; Detection] dry_world)
    = STATE dry_world /\
  pump_dir (run clock0 wall0 float0 [TestPump three_seconds; Detection] dry_world)
    = false.
Proof.
  destruct (dry_tank_refuses_every_spray clock0 wall0 float0
              [TestPump three_seconds; Detection] dry_world)
    as (Hstate & Hdir & _).
  - reflexivity.
  - vm_compute. reflexivity.
  - split; [exact Hstate | exact Hdir].
Defined.

(** The start button on the running robot. *)
Lemma motor_buttons_always_succeed_witness :
  motor_speed (STATE (exec (handle_motor_start float0) running_world)) = 0.2.
Proof.
  destruct (motor_buttons_always_succeed float0 running_world) as (_ & _ & Hrun).
  destruct (Hrun running_world_has_pause_attr) as (_ & Hspeed & _).
  exact Hspeed.
Defined.

(** A cooldown request leaves the file up to date. *)
Lemma file_follows_state_witness :
  file_up_to_date
    (exec (call clock0 wall0 float0 (SetCooldown {[ "cooldown"%string := JNum 100 ]}))
          running_world).
Proof.
  destruct (file_follows_state clock0 wall0 float0) as [_ Hcall].
  apply Hcall.
  - exact running_world_has_pause_attr.
  - exact running_world_file_up_to_date.
  - intros data H. discriminate H.
Defined.

(** Restarting the running robot. *)
Lemma restart_recovers_status_witness :
  result startup (starting_world (config_file running_world)) = Ret tt.
Proof.
  destruct (restart_recovers_status running_world running_world_file_up_to_date)
    as [Hres _].
  exact Hres.
Defined.

(** Two frames, the first with a detection. *)
Lemma control_loop_keeps_invariants_witness :
  pump_consistent (control_loop epoch_clock wall0 [true; false] running_world) /\
  file_up_to_date (control_loop epoch_clock wall0 [true; false] running_world).
Proof.
  destruct (control_loop_keeps_invariants epoch_clock wall0 float0
              epoch_clock_positive [true; false] running_world)
    as (_ & _ & _ & _ & Hpump & _ & Hfile).
  - split; [exact running_world_has_pause_attr |].
    split; [split; [vm_compute; split; discriminate
                   | exact running_STATE_saved_speed] |].
    split; [reflexivity |].
    split; [vm_compute; lia |].
    split; [exact running_world_pump_consistent |].
    split; [exact running_world_motor_consistent
           | exact running_world_file_up_to_date].
  - split; [exact Hpump | exact Hfile].
Defined.

(** A 640 by 480 frame is cropped to columns 80 to 560. *)
Lemma crop_area_is_centred_square_witness :
  crop_area 640 480 = (80, 0, 560, 480)%Z /\
  (560 - 80 = Z.min 640 480)%Z.
Proof.
  split; [reflexivity |].
  pose proof (crop_area_is_centred_square 640 480 ltac:(lia) ltac:(lia)) as H.
  cbn in H. apply H.
Defined.

(** Ten images split 7, 2 and 1. *)
Lemma split_images_is_a_partition_witness :
  let '(train_images, valid_images, test_images) :=
    split_images 7 2 (seq 0 10) in
  length train_images = 7%nat /\ length valid_images = 2%nat /\
  length test_images = 1%nat.
Proof.
  pose proof (split_images_is_a_partition 7 2 (seq 0 10)) as H.
  cbn in H |- *. destruct H as (_ & _ & Hfit).
  destruct Hfit as (H1 & H2 & H3); [lia |]. auto.
Defined.
